(** * pystatsd: the statsd client and its timer

    A shallow embedding of [statsd/client.py]: the metric operations of
    [StatsClientBase] ([incr], [decr], [set], [timing], [_prepare],
    [_after]), the UDP transport of [StatsClient] ([__init__], [_send]) and
    the [Timer] object (explicit [start]/[stop]/[send], the context
    manager and the decorator).

    Python semantics follow Python 3.  The interpreter's state that the
    module reads or writes is made explicit in a [World]: the stream that
    [random.random()] draws from, the readings of the clock [time_now()],
    the behaviour of the socket's [sendto] together with the list of calls
    it received, and the store of [Timer] objects. *)

From Stdlib Require Import ZArith String Ascii List Lia Bool.
From Stdlib Require Import DecimalString DecimalPos SpecFloat.
From stdpp Require Import base list strings.

Local Open Scope Z_scope.

(* ------------------------------------------------------------------ *)
(** ** Exceptions *)
(* ------------------------------------------------------------------ *)

(** The exception classes the module raises, catches or can meet, with the
    part of Python's class hierarchy that [except] clauses consult.
    [socket.error] is [OSError]; [socket.timeout] is one of its
    subclasses. *)
Inductive exc_class :=
| BaseException_
| Exception_
| KeyboardInterrupt
| OSError
| socket_timeout
| socket_gaierror
| RuntimeError
| NotImplementedError
| ArithmeticError
| OverflowError
| ValueError
| UnicodeError
| UnicodeEncodeError
| TypeError
| IndexError
| SystemError_.

Definition exc_class_eqb (a b : exc_class) : bool :=
  match a, b with
  | BaseException_, BaseException_ | Exception_, Exception_
  | KeyboardInterrupt, KeyboardInterrupt | OSError, OSError
  | socket_timeout, socket_timeout | socket_gaierror, socket_gaierror
  | RuntimeError, RuntimeError | NotImplementedError, NotImplementedError
  | ArithmeticError, ArithmeticError | OverflowError, OverflowError
  | ValueError, ValueError | UnicodeError, UnicodeError
  | UnicodeEncodeError, UnicodeEncodeError | TypeError, TypeError
  | IndexError, IndexError | SystemError_, SystemError_ => true
  | _, _ => false
  end.

(** The direct base class. *)
Definition base_class (c : exc_class) : option exc_class :=
  match c with
  | BaseException_ => None
  | Exception_ | KeyboardInterrupt => Some BaseException_
  | OSError | RuntimeError | ArithmeticError | ValueError | TypeError
  | IndexError | SystemError_ => Some Exception_
  | socket_timeout | socket_gaierror => Some OSError
  | NotImplementedError => Some RuntimeError
  | OverflowError => Some ArithmeticError
  | UnicodeError => Some ValueError
  | UnicodeEncodeError => Some UnicodeError
  end.

(** [issubclass c d]; the hierarchy above is at most five classes deep. *)
Fixpoint issubclass_fuel (fuel : nat) (c d : exc_class) : bool :=
  exc_class_eqb c d ||
  match fuel with
  | O => false
  | S fuel' =>
      match base_class c with
      | Some b => issubclass_fuel fuel' b d
      | None => false
      end
  end.

Definition issubclass : exc_class -> exc_class -> bool := issubclass_fuel 5.

(** A raised exception: its class and its message. *)
Record exn := Exn { exn_class : exc_class; exn_msg : string }.

(** [except (c1, c2, ...)] catches [e]. *)
Definition caught_by (classes : list exc_class) (e : exn) : bool :=
  existsb (issubclass (exn_class e)) classes.

(* ------------------------------------------------------------------ *)
(** ** Numbers *)
(* ------------------------------------------------------------------ *)

(** A Python [float] is an IEEE 754 binary64 number: [spec_float] at
    precision 53 and maximal exponent 1024. *)
Definition prec : Z := 53.
Definition emax : Z := 1024.

Definition float_mul : spec_float -> spec_float -> spec_float := SFmul prec emax.
Definition float_sub : spec_float -> spec_float -> spec_float := SFsub prec emax.
Definition float_div : spec_float -> spec_float -> spec_float := SFdiv prec emax.

(** [float(n)] for an [int]: the nearest double, ties to even; an [int]
    that rounds beyond the largest double raises [OverflowError]. *)
Definition float_of_int (n : Z) : exn + spec_float :=
  match binary_normalize prec emax n 0 false with
  | S754_infinity _ => inl (Exn OverflowError "int too large to convert to float")
  | f => inr f
  end.

(** The double nearest to [n], for the literals of the examples. *)
Definition float_lit (n : Z) : spec_float := binary_normalize prec emax n 0 false.

(** The double nearest to [a / b], for integers that are doubles: the
    literal [1.2] is [float_ratio 12 10]. *)
Definition float_ratio (a b : Z) : spec_float :=
  float_div (float_lit a) (float_lit b).

(** A numeric argument: [int] or [float]. *)
Inductive pynum :=
| PyInt (n : Z)
| PyFloat (f : spec_float).

(** Unary minus. *)
Definition num_neg (x : pynum) : pynum :=
  match x with
  | PyInt n => PyInt (- n)
  | PyFloat f => PyFloat (SFopp f)
  end.

(** Numbers on the extended line, for exact comparison: a finite number is
    [(sign) m * 2^e]. *)
Inductive extended :=
| ENaN
| ENegInf
| EPosInf
| EFin (m e : Z).

Definition extended_of (x : pynum) : extended :=
  match x with
  | PyInt n => EFin n 0
  | PyFloat S754_nan => ENaN
  | PyFloat (S754_infinity s) => if s then ENegInf else EPosInf
  | PyFloat (S754_zero _) => EFin 0 0
  | PyFloat (S754_finite s m e) => EFin (if s then Z.neg m else Z.pos m) e
  end.

(** Python compares an [int] with a [float], and two floats, by value;
    every comparison with a NaN is false. *)
Definition num_compare (x y : pynum) : option comparison :=
  match extended_of x, extended_of y with
  | ENaN, _ | _, ENaN => None
  | ENegInf, ENegInf | EPosInf, EPosInf => Some Eq
  | ENegInf, _ | _, EPosInf => Some Lt
  | EPosInf, _ | _, ENegInf => Some Gt
  | EFin m1 e1, EFin m2 e2 =>
      let e := Z.min e1 e2 in
      Some (Z.compare (m1 * 2 ^ (e1 - e)) (m2 * 2 ^ (e2 - e)))
  end.

(** [x < y] *)
Definition num_lt (x y : pynum) : bool :=
  match num_compare x y with Some Lt => true | _ => false end.

(** [x > y] *)
Definition num_gt (x y : pynum) : bool :=
  match num_compare x y with Some Gt => true | _ => false end.

(** [x == y] *)
Definition num_eq (x y : pynum) : bool :=
  match num_compare x y with Some Eq => true | _ => false end.

(* ------------------------------------------------------------------ *)
(** ** Text: what [%s] and [%0.6f] print *)
(* ------------------------------------------------------------------ *)

(** [str(n)] for an [int]. *)
Definition str_of_int (n : Z) : string := NilZero.string_of_int (Z.to_int n).

Definition digit_char (d : nat) : ascii :=
  match d with
  | 0 => "0" | 1 => "1" | 2 => "2" | 3 => "3" | 4 => "4"
  | 5 => "5" | 6 => "6" | 7 => "7" | 8 => "8" | _ => "9"
  end%nat%char.

(** The decimal digit of [n] at the place [10^k]. *)
Definition digit_at (n : Z) (k : Z) : ascii :=
  digit_char (Z.to_nat ((n / 10 ^ k) mod 10)).

(** The six digits of [0 <= r < 10^6], zero-padded. *)
Definition frac6 (r : Z) : string :=
  String (digit_at r 5) (String (digit_at r 4) (String (digit_at r 3)
  (String (digit_at r 2) (String (digit_at r 1) (String (digit_at r 0) ""))))).

(** [num / den] rounded to the nearest integer, ties to even ([0 < den]). *)
Definition round_half_even (num den : Z) : Z :=
  let q := num / den in
  match 2 * (num mod den) ?= den with
  | Lt => q
  | Gt => q + 1
  | Eq => if Z.even q then q else q + 1
  end.

(** [m * 2^e] in millionths, correctly rounded. *)
Definition millionths (m : positive) (e : Z) : Z :=
  if 0 <=? e then Z.pos m * 2 ^ e * 10 ^ 6
  else round_half_even (Z.pos m * 10 ^ 6) (2 ^ (- e)).

Definition sign_str (s : bool) : string := if s then "-" else "".

(** A number of millionths in fixed notation. *)
Definition fixed6 (n : Z) : string :=
  str_of_int (n / 10 ^ 6) +:+ "." +:+ frac6 (n mod 10 ^ 6).

(** ['%0.6f' % f] for a [float]: fixed notation with six decimals whatever
    the magnitude; the infinities and NaN print as words. *)
Definition format_f6_float (f : spec_float) : string :=
  match f with
  | S754_nan => "nan"
  | S754_infinity s => sign_str s +:+ "inf"
  | S754_zero s => sign_str s +:+ fixed6 0
  | S754_finite s m e => sign_str s +:+ fixed6 (millionths m e)
  end.

(** ['%0.6f' % x]: an [int] is converted to [float] first. *)
Definition format_f6 (x : pynum) : exn + string :=
  match x with
  | PyFloat f => inr (format_f6_float f)
  | PyInt n =>
      match float_of_int n with
      | inl e => inl e
      | inr f => inr (format_f6_float f)
      end
  end.

(** *** [repr] of a float: the shortest decimal that reads back as it *)

(** [c * 10^p] compared with [b * 2^q]. *)
Definition cmp_dec_bin (c p b q : Z) : comparison :=
  Z.compare (c * 10 ^ Z.max p 0 * 2 ^ Z.max (- q) 0)
            (b * 2 ^ Z.max q 0 * 10 ^ Z.max (- p) 0).

(** The [k] with [10^(k-1) <= m * 2^e < 10^k]. *)
Definition decimal_point (m : positive) (e : Z) : Z :=
  let k := (Z.log2 (Z.pos m) + e) * 30103 / 100000 + 1 in
  match cmp_dec_bin 1 (k - 1) (Z.pos m) e with
  | Gt => k - 1
  | _ => match cmp_dec_bin 1 k (Z.pos m) e with Gt => k | _ => k + 1 end
  end.

(** The decimal [c * 10^(k-d)] with [d] digits nearest to [m * 2^e], when
    it reads back as [m * 2^e]: when it lies within half a gap of it,
    the bounds included for an even mantissa.  The gap below a power of
    two is half the gap above. *)
Definition digits_candidate (m : positive) (e k d : Z) : option (Z * Z) :=
  let p := k - d in
  let v4 := 4 * Z.pos m in
  let hi := v4 + 2 in
  let lo := if (Z.pos m =? 2 ^ 52) && (-1074 <? e) then v4 - 1 else v4 - 2 in
  let incl := Z.even (Z.pos m) in
  let c1 := (Z.pos m * 2 ^ Z.max e 0 * 10 ^ Z.max (- p) 0)
            / (2 ^ Z.max (- e) 0 * 10 ^ Z.max p 0) in
  let c2 := c1 + 1 in
  let ok c :=
    match cmp_dec_bin c p lo (e - 2), cmp_dec_bin c p hi (e - 2) with
    | Gt, Lt => true
    | Eq, Lt | Gt, Eq => incl
    | _, _ => false
    end in
  let c1_nearer :=
    match cmp_dec_bin (2 * c1 + 1) p (2 * v4) (e - 2) with
    | Gt => true
    | Lt => false
    | Eq => Z.even c1
    end in
  if ok c1 && ok c2 then Some (if c1_nearer then c1 else c2, p)
  else if ok c1 then Some (c1, p)
  else if ok c2 then Some (c2, p)
  else None.

(** The first length, from [d] on, at which a decimal reads back. *)
Fixpoint shortest_digits (fuel : nat) (m : positive) (e k d : Z) : Z * Z :=
  match digits_candidate m e k d, fuel with
  | Some cp, _ => cp
  | None, S fuel' => shortest_digits fuel' m e k (d + 1)
  | None, O => (Z.pos m * 2 ^ Z.max e 0 * 10 ^ Z.max (d - k) 0
                / (2 ^ Z.max (- e) 0 * 10 ^ Z.max (k - d) 0), k - d)
  end.

Fixpoint strip_zeros (fuel : nat) (c p : Z) : Z * Z :=
  match fuel with
  | O => (c, p)
  | S fuel' => if (c mod 10 =? 0) && (0 <? c) then strip_zeros fuel' (c / 10) (p + 1)
               else (c, p)
  end.

Fixpoint zeros (n : nat) : string :=
  match n with O => "" | S n' => String "0" (zeros n') end.

(** The digits [ds], read as [0.ds * 10^decpt], the way [repr] lays them
    out: fixed notation for [-4 < decpt <= 16], else with an exponent of
    at least two digits. *)
Definition repr_layout (ds : string) (decpt : Z) : string :=
  let n := Z.of_nat (String.length ds) in
  if (-4 <? decpt) && (decpt <=? 16) then
    if decpt <=? 0 then "0." +:+ zeros (Z.to_nat (- decpt)) +:+ ds
    else if decpt <? n then
      substring 0 (Z.to_nat decpt) ds +:+ "." +:+
      substring (Z.to_nat decpt) (Z.to_nat (n - decpt)) ds
    else ds +:+ zeros (Z.to_nat (decpt - n)) +:+ ".0"
  else
    let x := decpt - 1 in
    substring 0 1 ds +:+
    (if 1 <? n then "." +:+ substring 1 (Z.to_nat (n - 1)) ds else "") +:+
    "e" +:+ (if x <? 0 then "-" else "+") +:+
    (if Z.abs x <? 10 then "0" else "") +:+ str_of_int (Z.abs x).

(** The digits of [m * 2^e], laid out. *)
Definition repr_finite (m : positive) (e : Z) : string :=
  let '(c, p) := shortest_digits 16 m e (decimal_point m e) 1 in
  let '(c', p') := strip_zeros 20 c p in
  let ds := str_of_int c' in
  repr_layout ds (Z.of_nat (String.length ds) + p').

(** [repr(f)], which is also [str(f)] and what [%s] prints. *)
Definition repr_float (f : spec_float) : string :=
  match f with
  | S754_nan => "nan"
  | S754_infinity s => sign_str s +:+ "inf"
  | S754_zero s => sign_str s +:+ "0.0"
  | S754_finite s m e => sign_str s +:+ repr_finite m e
  end.

(** [str(x)] of a number. *)
Definition str_of_num (x : pynum) : string :=
  match x with
  | PyInt n => str_of_int n
  | PyFloat f => repr_float f
  end.

(** A value that [%s] renders: the [count] of [incr] and the [value] of
    [set] are numbers or strings. *)
Inductive pyval :=
| VNum (x : pynum)
| VStr (s : string).

(** ['%s' % v] *)
Definition str_of (v : pyval) : string :=
  match v with
  | VNum x => str_of_num x
  | VStr s => s
  end.

(** [-v]: defined on numbers only. *)
Definition val_neg (v : pyval) : exn + pyval :=
  match v with
  | VNum x => inr (VNum (num_neg x))
  | VStr _ => inl (Exn TypeError "bad operand type for unary -: 'str'")
  end.

(** A [str] is a [string] whose characters are the code points below 256;
    the ASCII ones are those below 128. *)
Definition is_ascii_char (a : ascii) : bool := (N_of_ascii a <? 128)%N.

Definition is_ascii (s : string) : bool :=
  forallb is_ascii_char (list_ascii_of_string s).

(** [s.encode('ascii')].  The message of the exception is abridged:
    Python's names the character and its position. *)
Definition encode_ascii (s : string) : exn + list Byte.byte :=
  if is_ascii s then inr (list_byte_of_string s)
  else inl (Exn UnicodeEncodeError
                "'ascii' codec can't encode character: ordinal not in range(128)").

(** Truth value of an optional string: [None] and [''] are false. *)
Definition truthy (s : option string) : bool :=
  match s with
  | None | Some EmptyString => false
  | Some _ => true
  end.

(* ------------------------------------------------------------------ *)
(** ** The world outside the module *)
(* ------------------------------------------------------------------ *)

Inductive address_family := AF_INET | AF_INET6.
Inductive socket_kind := SOCK_STREAM | SOCK_DGRAM.

(** A socket address: [(host, port)] for IPv4 and
    [(host, port, flowinfo, scope_id)] for IPv6. *)
Inductive sockaddr :=
| Addr4 (host : string) (port : Z)
| Addr6 (host : string) (port flowinfo scope_id : Z).

(** One entry of [socket.getaddrinfo]'s answer:
    [(family, type, proto, canonname, sockaddr)]. *)
Definition addrinfo : Type :=
  address_family * socket_kind * Z * string * sockaddr.

(** A socket object, as [socket.socket(family, type)] made it. *)
Record socket := Socket { sock_family : address_family; sock_kind : socket_kind }.

(** A client: the four attributes [StatsClient.__init__] assigns.  No
    method of the module assigns them again. *)
Record StatsClient := Client {
  _addr : sockaddr;
  _sock : socket;
  _prefix : option string;
  _maxudpsize : Z
}.

(** A [Timer] object: the six attributes [Timer.__init__] assigns. *)
Module Timer.
Record obj := Obj {
  client : StatsClient;
  stat : string;
  rate : pynum;
  ms : option spec_float;
  _sent : bool;
  _start_time : option spec_float
}.
End Timer.

(** A reference to a [Timer] object: its place in the store. *)
Definition ref := nat.

(** The state the module runs in.  The three oracles say what the
    environment answers: the [n]-th call of [random.random()], the [n]-th
    reading of [time_now()], the name resolution of [socket.getaddrinfo],
    and whether the [n]-th call of [sendto] raises.  The rest is what the
    module has done so far. *)
Record World := MkWorld {
  random_stream : nat -> pynum;
  clock : nat -> spec_float;
  resolver : string -> Z -> address_family -> socket_kind -> exn + list addrinfo;
  sendto_fault : nat -> option exn;
  random_calls : nat;
  clock_calls : nat;
  getaddrinfo_calls : list (string * Z * address_family * socket_kind);
  sockets : list socket;
  sendto_calls : list (socket * list Byte.byte * sockaddr);
  datagrams : list (list Byte.byte * sockaddr);
  timers : list Timer.obj
}.

Definition set_random_calls (n : nat) (w : World) : World :=
  MkWorld (random_stream w) (clock w) (resolver w) (sendto_fault w)
          n (clock_calls w) (getaddrinfo_calls w) (sockets w)
          (sendto_calls w) (datagrams w) (timers w).

Definition set_clock_calls (n : nat) (w : World) : World :=
  MkWorld (random_stream w) (clock w) (resolver w) (sendto_fault w)
          (random_calls w) n (getaddrinfo_calls w) (sockets w)
          (sendto_calls w) (datagrams w) (timers w).

Definition set_getaddrinfo_calls l (w : World) : World :=
  MkWorld (random_stream w) (clock w) (resolver w) (sendto_fault w)
          (random_calls w) (clock_calls w) l (sockets w)
          (sendto_calls w) (datagrams w) (timers w).

Definition set_sockets l (w : World) : World :=
  MkWorld (random_stream w) (clock w) (resolver w) (sendto_fault w)
          (random_calls w) (clock_calls w) (getaddrinfo_calls w) l
          (sendto_calls w) (datagrams w) (timers w).

Definition set_sendto_calls l (w : World) : World :=
  MkWorld (random_stream w) (clock w) (resolver w) (sendto_fault w)
          (random_calls w) (clock_calls w) (getaddrinfo_calls w) (sockets w)
          l (datagrams w) (timers w).

Definition set_datagrams l (w : World) : World :=
  MkWorld (random_stream w) (clock w) (resolver w) (sendto_fault w)
          (random_calls w) (clock_calls w) (getaddrinfo_calls w) (sockets w)
          (sendto_calls w) l (timers w).

Definition set_timers l (w : World) : World :=
  MkWorld (random_stream w) (clock w) (resolver w) (sendto_fault w)
          (random_calls w) (clock_calls w) (getaddrinfo_calls w) (sockets w)
          (sendto_calls w) (datagrams w) l.

(* ------------------------------------------------------------------ *)
(** ** Computations: state and exceptions *)
(* ------------------------------------------------------------------ *)

(** How a call ends. *)
Inductive outcome (A : Type) :=
| Return (a : A)
| Raise (e : exn).
Arguments Return {A} a.
Arguments Raise {A} e.

(** A computation: from a world to how it ends and the world it leaves. *)
Definition M (A : Type) : Type := World -> outcome A * World.

Definition ret {A} (a : A) : M A := fun w => (Return a, w).

Definition raise {A} (e : exn) : M A := fun w => (Raise e, w).

Definition bind {A B} (m : M A) (k : A -> M B) : M B :=
  fun w =>
    match m w with
    | (Return a, w') => k a w'
    | (Raise e, w') => (Raise e, w')
    end.

Notation "x <- c1 ;; c2" := (bind c1 (fun x => c2))
  (at level 100, c1 at next level, right associativity).
Notation "c1 ;; c2" := (bind c1 (fun _ => c2))
  (at level 100, right associativity).

(** A pure step that can raise. *)
Definition lift {A} (r : exn + A) : M A :=
  match r with
  | inl e => raise e
  | inr a => ret a
  end.

(** [try: body  finally: final]: [final] runs however [body] ends; an
    exception of [final] replaces the outcome of [body]. *)
Definition try_finally {A} (body : M A) (final : M unit) : M A :=
  fun w =>
    let '(r, w1) := body w in
    match final w1 with
    | (Return _, w2) => (r, w2)
    | (Raise e, w2) => (Raise e, w2)
    end.

(** [try: body  except classes: handler] *)
Definition try_except {A} (classes : list exc_class) (body : M A)
    (handler : exn -> M A) : M A :=
  fun w =>
    match body w with
    | (Return a, w1) => (Return a, w1)
    | (Raise e, w1) => if caught_by classes e then handler e w1 else (Raise e, w1)
    end.

(** [with mgr as v: body].  [exit_] gets the exception of the body, if
    any, and answers the truth value of what [__exit__] returned: a true
    answer suppresses the exception, and the statement then ends without
    a value.  An exception of [exit_] itself replaces that of the body. *)
Definition with_stmt {T A} (enter : M T) (exit_ : option exn -> M bool)
    (body : T -> M A) : M (option A) :=
  v <- enter ;;
  fun w =>
    match body v w with
    | (Return a, w1) =>
        match exit_ None w1 with
        | (Return _, w2) => (Return (Some a), w2)
        | (Raise e', w2) => (Raise e', w2)
        end
    | (Raise e, w1) =>
        match exit_ (Some e) w1 with
        | (Return true, w2) => (Return None, w2)
        | (Return false, w2) => (Raise e, w2)
        | (Raise e', w2) => (Raise e', w2)
        end
    end.

(** *** The environment's calls *)

(** [random.random()] *)
Definition random_random : M pynum :=
  fun w => (Return (random_stream w (random_calls w)),
            set_random_calls (S (random_calls w)) w).

(** [time_now()] *)
Definition time_now : M spec_float :=
  fun w => (Return (clock w (clock_calls w)),
            set_clock_calls (S (clock_calls w)) w).

(** [socket.getaddrinfo(host, port, family, type)] *)
Definition getaddrinfo (host : string) (port : Z) (fam : address_family)
    (kind : socket_kind) : M (list addrinfo) :=
  fun w =>
    let w' := set_getaddrinfo_calls
                (getaddrinfo_calls w ++ [(host, port, fam, kind)]) w in
    match resolver w host port fam kind with
    | inl e => (Raise e, w')
    | inr l => (Return l, w')
    end.

(** [socket.socket(family, type)] *)
Definition socket_socket (fam : address_family) (kind : socket_kind) : M socket :=
  fun w => (Return (Socket fam kind), set_sockets (sockets w ++ [Socket fam kind]) w).

(** [sock.sendto(payload, addr)]: the call is on record whatever its end;
    a datagram leaves when the call does not raise. *)
Definition sendto (sock : socket) (payload : list Byte.byte) (addr : sockaddr)
    : M unit :=
  fun w =>
    let w' := set_sendto_calls (sendto_calls w ++ [(sock, payload, addr)]) w in
    match sendto_fault w (length (sendto_calls w)) with
    | Some e => (Raise e, w')
    | None => (Return tt, set_datagrams (datagrams w ++ [(payload, addr)]) w')
    end.

(* ------------------------------------------------------------------ *)
(** ** [StatsClient] and [StatsClientBase] *)
(* ------------------------------------------------------------------ *)

(** [StatsClient._send]: encode the line and hand it to the socket;
    [socket.error] and [RuntimeError] are dropped. *)
Definition _send (self : StatsClient) (data : string) : M unit :=
  try_except [OSError; RuntimeError]
    (payload <- lift (encode_ascii data) ;;
     sendto (_sock self) payload (_addr self))
    (fun _ => ret tt).

(** [StatsClientBase._prepare]: [None] when the sample is dropped, else
    the line. *)
Definition _prepare (self : StatsClient) (stat value : string) (rate : pynum)
    : M (option string) :=
  sampled <-
    (if num_lt rate (PyInt 1) then
       r <- random_random ;;
       if num_gt r rate then ret None
       else ret (Some (value +:+ "|@" +:+ str_of_num rate))
     else ret (Some value)) ;;
  match sampled with
  | None => ret None
  | Some value' =>
      let stat' :=
        match _prefix self with
        | Some p => if truthy (Some p) then p +:+ "." +:+ stat else stat
        | None => stat
        end in
      ret (Some (stat' +:+ ":" +:+ value'))
  end.

(** [StatsClientBase._after]: [if data: self._send(data)] *)
Definition _after (self : StatsClient) (data : option string) : M unit :=
  match data with
  | Some line => if truthy (Some line) then _send self line else ret tt
  | None => ret tt
  end.

Definition _send_stat (self : StatsClient) (stat value : string) (rate : pynum)
    : M unit :=
  data <- _prepare self stat value rate ;;
  _after self data.

(** [timing(stat, delta, rate)]: ['%0.6f|ms' % delta] *)
Definition timing (self : StatsClient) (stat : string) (delta rate : pynum)
    : M unit :=
  v <- lift (format_f6 delta) ;;
  _send_stat self stat (v +:+ "|ms") rate.

(** [incr(stat, count, rate)]: ['%s|c' % count] *)
Definition incr (self : StatsClient) (stat : string) (count : pyval)
    (rate : pynum) : M unit :=
  _send_stat self stat (str_of count +:+ "|c") rate.

(** [decr(stat, count, rate)]: [self.incr(stat, -count, rate)] *)
Definition decr (self : StatsClient) (stat : string) (count : pyval)
    (rate : pynum) : M unit :=
  count' <- lift (val_neg count) ;;
  incr self stat count' rate.

(** [set(stat, value, rate)]: ['%s|s' % value] *)
Definition set (self : StatsClient) (stat : string) (value : pyval)
    (rate : pynum) : M unit :=
  _send_stat self stat (str_of value +:+ "|s") rate.

(** [StatsClient.__init__(host, port, prefix, maxudpsize)] *)
Definition __init__ (host : string) (port : Z) (prefix : option string)
    (maxudpsize : Z) : M StatsClient :=
  let fam := AF_INET in
  infos <- getaddrinfo host port fam SOCK_DGRAM ;;
  match infos with
  | [] => raise (Exn IndexError "list index out of range")
  | (family, _, _, _, addr) :: _ =>
      sock <- socket_socket family SOCK_DGRAM ;;
      ret (Client addr sock prefix maxudpsize)
  end.

(** *** Calling the constructor with keyword arguments *)

Inductive pyarg :=
| ArgStr (s : string)
| ArgInt (n : Z)
| ArgBool (b : bool)
| ArgNone.

(** The parameters [__init__] declares, after [self]. *)
Definition init_params : list string := ["host"; "port"; "prefix"; "maxudpsize"].

Definition kwarg (name : string) (kwargs : list (string * pyarg)) : option pyarg :=
  option_map snd (List.find (fun kv => String.eqb (fst kv) name) kwargs).

(** [StatsClient(k1=v1, ...)]: a keyword that [__init__] does not declare
    is a [TypeError]; a keyword left out takes its default
    ([host='localhost', port=8125, prefix=None, maxudpsize=512]).  The
    arguments covered are a string for the host, integers for the port and
    the size, and a string or [None] for the prefix; what Python does with
    arguments of other types (a port of [None], say) is outside this
    model, and the last branch, which Python does not have, is there to
    make the function total. *)
Definition new_StatsClient (kwargs : list (string * pyarg)) : M StatsClient :=
  match List.find (fun kv => negb (existsb (String.eqb (fst kv)) init_params)) kwargs with
  | Some (k, _) =>
      raise (Exn TypeError
               ("__init__() got an unexpected keyword argument '" +:+ k +:+ "'"))
  | None =>
      match default (ArgStr "localhost") (kwarg "host" kwargs),
            default (ArgInt 8125) (kwarg "port" kwargs),
            default ArgNone (kwarg "prefix" kwargs),
            default (ArgInt 512) (kwarg "maxudpsize" kwargs) with
      | ArgStr host, ArgInt port, ArgStr p, ArgInt size =>
          __init__ host port (Some p) size
      | ArgStr host, ArgInt port, ArgNone, ArgInt size =>
          __init__ host port None size
      | _, _, _, _ => raise (Exn SystemError_ "argument types outside the model")
      end
  end.

(* ------------------------------------------------------------------ *)
(** ** [Timer] *)
(* ------------------------------------------------------------------ *)

(** Reading and writing the object behind a reference.  A reference that
    [Timer.__init__] returned is always in the store; the error case, which
    Python does not have, is there to make the functions total. *)
Definition get_timer (self : ref) : M Timer.obj :=
  fun w =>
    match timers w !! self with
    | Some o => (Return o, w)
    | None => (Raise (Exn SystemError_ "not a Timer"), w)
    end.

Definition put_timer (self : ref) (o : Timer.obj) : M unit :=
  fun w => (Return tt, set_timers (<[self := o]> (timers w)) w).

(** An assignment to one attribute: [self.x = v]. *)
Definition update_timer (self : ref) (f : Timer.obj -> Timer.obj) : M unit :=
  o <- get_timer self ;;
  put_timer self (f o).

Definition set_ms (x : option spec_float) (o : Timer.obj) : Timer.obj :=
  Timer.Obj (Timer.client o) (Timer.stat o) (Timer.rate o)
            x (Timer._sent o) (Timer._start_time o).

Definition set_sent (b : bool) (o : Timer.obj) : Timer.obj :=
  Timer.Obj (Timer.client o) (Timer.stat o) (Timer.rate o)
            (Timer.ms o) b (Timer._start_time o).

Definition set_start_time (x : option spec_float) (o : Timer.obj) : Timer.obj :=
  Timer.Obj (Timer.client o) (Timer.stat o) (Timer.rate o)
            (Timer.ms o) (Timer._sent o) x.

(** [Timer.__init__(client, stat, rate)]: a new object in the store. *)
Definition Timer__init__ (client : StatsClient) (stat : string) (rate : pynum)
    : M ref :=
  fun w =>
    (Return (length (timers w)),
     set_timers (timers w ++ [Timer.Obj client stat rate None false None]) w).

(** [StatsClientBase.timer(stat, rate)] *)
Definition timer (self : StatsClient) (stat : string) (rate : pynum) : M ref :=
  Timer__init__ self stat rate.

(** [1000.0 * dt] *)
Definition to_ms (dt : spec_float) : spec_float := float_mul (float_lit 1000) dt.

(** [Timer.start] *)
Definition start (self : ref) : M ref :=
  update_timer self (set_ms None) ;;
  update_timer self (set_sent false) ;;
  now <- time_now ;;
  update_timer self (set_start_time (Some now)) ;;
  ret self.

(** [Timer.send] *)
Definition send (self : ref) : M unit :=
  o <- get_timer self ;;
  match Timer.ms o with
  | None => raise (Exn RuntimeError "No data recorded.")
  | Some ms =>
      if Timer._sent o then raise (Exn RuntimeError "Already sent data.")
      else
        update_timer self (set_sent true) ;;
        timing (Timer.client o) (Timer.stat o) (PyFloat ms) (Timer.rate o)
  end.

(** [Timer.stop(send)] *)
Definition stop (self : ref) (send_ : bool) : M ref :=
  o <- get_timer self ;;
  match Timer._start_time o with
  | None => raise (Exn RuntimeError "Timer has not started.")
  | Some start_time =>
      now <- time_now ;;
      let dt := float_sub now start_time in
      update_timer self (set_ms (Some (to_ms dt))) ;;
      (if send_ then send self else ret tt) ;;
      ret self
  end.

(** [Timer.__enter__] *)
Definition __enter__ (self : ref) : M ref := start self.

(** [Timer.__exit__(typ, value, tb)]: it returns [None], which is false,
    so an exception of the body is never suppressed. *)
Definition __exit__ (self : ref) (exc : option exn) : M bool :=
  stop self true ;;
  ret false.

(** [Timer.__call__(f)]: the decorator; [_wrapped] is the function it
    returns.  [safe_wraps] copies the name and the documentation of [f]
    and leaves the behaviour of [_wrapped] as it is. *)
Definition _wrapped {Args Ret : Type} (self : ref) (f : Args -> M Ret)
    (args : Args) : M Ret :=
  start_time <- time_now ;;
  return_value <-
    try_finally (f args)
      (now <- time_now ;;
       let elapsed_time_ms := to_ms (float_sub now start_time) in
       o <- get_timer self ;;
       timing (Timer.client o) (Timer.stat o) (PyFloat elapsed_time_ms)
              (Timer.rate o)) ;;
  ret return_value.

Definition __call__ {Args Ret : Type} (self : ref) (f : Args -> M Ret)
    : Args -> M Ret :=
  _wrapped self f.

(* ------------------------------------------------------------------ *)
(** ** The vocabulary of the statements *)
(* ------------------------------------------------------------------ *)

(** A call of one of the four metric operations. *)
Inductive metric_call :=
| CallIncr (stat : string) (count : pyval) (rate : pynum)
| CallDecr (stat : string) (count : pyval) (rate : pynum)
| CallSet (stat : string) (value : pyval) (rate : pynum)
| CallTiming (stat : string) (delta : pynum) (rate : pynum).

Definition run_call (self : StatsClient) (c : metric_call) : M unit :=
  match c with
  | CallIncr stat count rate => incr self stat count rate
  | CallDecr stat count rate => decr self stat count rate
  | CallSet stat value rate => set self stat value rate
  | CallTiming stat delta rate => timing self stat delta rate
  end.

Definition call_stat (c : metric_call) : string :=
  match c with
  | CallIncr stat _ _ | CallDecr stat _ _ | CallSet stat _ _
  | CallTiming stat _ _ => stat
  end.

Definition call_rate (c : metric_call) : pynum :=
  match c with
  | CallIncr _ _ rate | CallDecr _ _ rate | CallSet _ _ rate
  | CallTiming _ _ rate => rate
  end.

(** The value with its type suffix that the operation formats, when the
    formatting does not raise. *)
Definition value_portion (c : metric_call) : exn + string :=
  match c with
  | CallIncr _ count _ => inr (str_of count +:+ "|c")
  | CallDecr _ count _ =>
      match val_neg count with
      | inl e => inl e
      | inr count' => inr (str_of count' +:+ "|c")
      end
  | CallSet _ value _ => inr (str_of value +:+ "|s")
  | CallTiming _ delta _ =>
      match format_f6 delta with
      | inl e => inl e
      | inr v => inr (v +:+ "|ms")
      end
  end.

(** The stat name as it goes on the wire. *)
Definition wire_name (self : StatsClient) (stat : string) : string :=
  match _prefix self with
  | Some p => if truthy (Some p) then p +:+ "." +:+ stat else stat
  | None => stat
  end.

(** The world after one more draw of [random.random()]. *)
Definition drawn (w : World) : World := set_random_calls (S (random_calls w)) w.

(** The draw that the next call of [random.random()] returns. *)
Definition next_draw (w : World) : pynum := random_stream w (random_calls w).

(** The world after one more reading of the clock. *)
Definition ticked (w : World) : World := set_clock_calls (S (clock_calls w)) w.

(** The reading that the next call of [time_now()] returns. *)
Definition next_time (w : World) : spec_float := clock w (clock_calls w).

(** The world with the object behind [t] replaced. *)
Definition with_timer (t : ref) (o : Timer.obj) (w : World) : World :=
  set_timers (<[t := o]> (timers w)) w.

(** [f] leaves the part [proj] of the world as it found it. *)
Definition frame {A X} (proj : World -> X) (m : M A) : Prop :=
  forall w, proj (snd (m w)) = proj w.

(** *** Text shapes *)

Definition is_digit (a : ascii) : bool :=
  ((48 <=? N_of_ascii a) && (N_of_ascii a <=? 57))%N.

Fixpoint all_digits (s : string) : bool :=
  match s with
  | EmptyString => true
  | String a s' => is_digit a && all_digits s'
  end.

(** Plain decimal notation with six decimals: an optional minus sign, at
    least one digit, a point and exactly six digits; no exponent. *)
Definition fixed_six (text : string) : Prop :=
  exists (s : bool) (ip fp : string),
    text = sign_str s +:+ ip +:+ "." +:+ fp /\
    ip <> ""%string /\ all_digits ip = true /\
    all_digits fp = true /\ String.length fp = 6%nat.

(** A millisecond value that is a finite number: a finite [float], or an
    [int] that [float()] converts. *)
Definition finite_ms (delta : pynum) : Prop :=
  match delta with
  | PyFloat (S754_zero _) | PyFloat (S754_finite _ _ _) => True
  | PyFloat _ => False
  | PyInt n => exists f, float_of_int n = inr f
  end.

(** A number with a plus sign: a positive [int], or a [float] that is not
    a NaN and whose sign bit is clear. *)
Definition plus_signed (x : pynum) : bool :=
  match x with
  | PyInt n => 0 <? n
  | PyFloat S754_nan => false
  | PyFloat (S754_zero s) | PyFloat (S754_infinity s)
  | PyFloat (S754_finite s _ _) => negb s
  end.

(** *** Running code *)

(** A call whose exception the caller catches, to go on. *)
Definition attempt {A} (m : M A) : M unit :=
  fun w => (Return tt, snd (m w)).

(** The calls of [cs], one after the other. *)
Fixpoint run_calls (self : StatsClient) (cs : list metric_call) : M unit :=
  match cs with
  | [] => ret tt
  | c :: cs' => attempt (run_call self c) ;; run_calls self cs'
  end.

(** The decorated function called on each of [argss] in turn. *)
Fixpoint invocations {Args Ret} (wrapped : Args -> M Ret) (argss : list Args)
    : M unit :=
  match argss with
  | [] => ret tt
  | args :: rest => attempt (wrapped args) ;; invocations wrapped rest
  end.

(** [with timer as t: body] *)
Definition scoped {A} (t : ref) (body : ref -> M A) : M (option A) :=
  with_stmt (__enter__ t) (__exit__ t) body.

(** What a [with] statement whose [__exit__] returned [None] hands on. *)
Definition propagated {A} (r : outcome A) : outcome (option A) :=
  match r with
  | Return a => Return (Some a)
  | Raise e => Raise e
  end.

(** [r], unless the emission [r'] raised. *)
Definition after_emission {A} (r : outcome A) (r' : outcome unit * World)
    : outcome A * World :=
  match r' with
  | (Return _, w) => (r, w)
  | (Raise e, w) => (Raise e, w)
  end.

(** *** A concrete world *)

(** The resolver of a host that knows [localhost] under both families,
    and each of the two literal addresses under its own family only. *)
Definition localhost_resolver (host : string) (port : Z) (fam : address_family)
    (kind : socket_kind) : exn + list addrinfo :=
  match fam with
  | AF_INET =>
      if String.eqb host "localhost" || String.eqb host "127.0.0.1" then
        inr [(AF_INET, kind, 17, ""%string, Addr4 "127.0.0.1" port)]
      else if String.eqb host "::1" then
        inl (Exn socket_gaierror "Address family for hostname not supported")
      else inl (Exn socket_gaierror "Name or service not known")
  | AF_INET6 =>
      if String.eqb host "localhost" || String.eqb host "::1" then
        inr [(AF_INET6, kind, 17, ""%string, Addr6 "::1" port 0 0)]
      else if String.eqb host "127.0.0.1" then
        inl (Exn socket_gaierror "Address family for hostname not supported")
      else inl (Exn socket_gaierror "Name or service not known")
  end.

(** A world in which every draw is [draw], the clock advances a second
    per reading and the network is sound. *)
Definition world0 (draw : pynum) : World :=
  MkWorld (fun _ => draw) (fun n => float_lit (Z.of_nat n)) localhost_resolver
          (fun _ => None) 0 0 [] [] [] [] [].

(** A world whose socket times out on every [sendto], as the mock of
    [test_socket_error] does. *)
Definition world_timeout : World :=
  MkWorld (fun _ => PyInt (-1)) (fun n => float_lit (Z.of_nat n))
          localhost_resolver (fun _ => Some (Exn socket_timeout "timed out"))
          0 0 [] [] [] [] [].

(** A name with a character outside ASCII: e acute, code point 233. *)
Definition e_acute : string := String "233"%char "".

(** [0.5] *)
Definition half : spec_float := float_ratio 1 2.

(** The client of the tests: [StatsClient('127.0.0.1', 8125, prefix)]. *)
Definition test_client (prefix : option string) : StatsClient :=
  Client (Addr4 "127.0.0.1" 8125) (Socket AF_INET SOCK_DGRAM) prefix 512.

(** The payloads of the [sendto] calls, as text. *)
Definition payloads (w : World) : list string :=
  List.map (fun c => string_of_list_byte (snd (fst c))) (sendto_calls w).

(** The world of the tests after [cl.timer(stat, rate)]: one timer, at
    reference [0]. *)
Definition world_timer (stat : string) (rate : pynum) : World :=
  snd (timer (test_client None) stat rate (world0 (PyInt (-1)))).

(** A scoped body that stops its timer itself and then fails. *)
Definition stop_then_fail (t : ref) : M unit :=
  stop t true ;; raise (Exn ValueError "boom").

(** A function to decorate: it returns its argument plus one. *)
Definition plus_one (x : Z) : M Z := ret (x + 1).

(** [m] neither reads nor writes the store of timers: with another store
    it ends the same way and leaves that store as it was. *)
Definition ignores_timers {A} (m : M A) : Prop :=
  forall (l : list Timer.obj) (w : World),
    m (set_timers l w) = (fst (m w), set_timers l (snd (m w))).

(* ------------------------------------------------------------------ *)
(** ** More vocabulary *)
(* ------------------------------------------------------------------ *)


(** A network whose [sendto] raises nothing but [socket.error] and
    [RuntimeError], subclasses included. *)
Definition benign (w : World) : Prop :=
  forall n e, sendto_fault w n = Some e ->
              caught_by [OSError; RuntimeError] e = true.

(** The world with one more call of [sendto] on record. *)
Definition with_sendto_call (call : socket * list Byte.byte * sockaddr)
    (w : World) : World :=
  set_sendto_calls (sendto_calls w ++ [call]) w.

(** The world with one more call of [getaddrinfo] on record. *)
Definition with_getaddrinfo_call
    (call : string * Z * address_family * socket_kind) (w : World) : World :=
  set_getaddrinfo_calls (getaddrinfo_calls w ++ [call]) w.


(** NaN, as a rate. *)
Definition nan_rate : pynum := PyFloat S754_nan.

(** A world whose socket raises [KeyboardInterrupt] on every [sendto]. *)
Definition world_interrupt : World :=
  MkWorld (fun _ => PyInt (-1)) (fun n => float_lit (Z.of_nat n))
          localhost_resolver (fun _ => Some (Exn KeyboardInterrupt ""))
          0 0 [] [] [] [] [].

(** The strings a call passes as count or value are ASCII. *)
Definition call_text_ascii (c : metric_call) : bool :=
  match c with
  | CallIncr _ (VStr s) _ | CallDecr _ (VStr s) _ | CallSet _ (VStr s) _ =>
      is_ascii s
  | _ => true
  end.

(** The prefix of the client, if any, is ASCII. *)
Definition prefix_ascii (self : StatsClient) : bool :=
  match _prefix self with
  | Some p => is_ascii p
  | None => true
  end.

(** [m] changes no object of the store but the one behind [t], and
    creates none. *)
Definition touches_only {A} (t : ref) (m : M A) : Prop :=
  forall w,
    length (timers (snd (m w))) = length (timers w) /\
    forall t', t' <> t -> timers (snd (m w)) !! t' = timers w !! t'.

(* ------------------------------------------------------------------ *)
(** ** Basic facts *)
(* ------------------------------------------------------------------ *)

Lemma num_eq_not_lt (x y : pynum) : num_eq x y = true -> num_lt x y = false.
Proof.
  unfold num_eq, num_lt. destruct (num_compare x y) as [[]|]; congruence.
Qed.

Lemma num_neg_involutive (x : pynum) : num_neg (num_neg x) = x.
Proof.
  destruct x as [n|f]; simpl.
  - now rewrite Z.opp_involutive.
  - destruct f; simpl; now rewrite ?negb_involutive.
Qed.

(** A line always has its colon, so it is never the empty string. *)
Lemma line_truthy (name value : string) :
  truthy (Some (name +:+ ":" +:+ value)) = true.
Proof. destruct name; reflexivity. Qed.

Lemma wire_name_no_prefix (self : StatsClient) (stat : string) :
  truthy (_prefix self) = false -> wire_name self stat = stat.
Proof.
  unfold wire_name. destruct (_prefix self) as [p|]; [|reflexivity].
  now intros ->.
Qed.

Lemma wire_name_prefix (self : StatsClient) (p stat : string) :
  _prefix self = Some p -> p <> ""%string ->
  wire_name self stat = p +:+ "." +:+ stat.
Proof.
  unfold wire_name. intros -> Hp. destruct p; [congruence|reflexivity].
Qed.

(** *** What the transport leaves alone *)

Lemma frame_ret {A X} (proj : World -> X) (a : A) : frame proj (ret a).
Proof. intros w. reflexivity. Qed.

Lemma frame_raise {A X} (proj : World -> X) (e : exn) : frame proj (@raise A e).
Proof. intros w. reflexivity. Qed.

Lemma frame_lift {A X} (proj : World -> X) (r : exn + A) : frame proj (lift r).
Proof. destruct r; [apply frame_raise | apply frame_ret]. Qed.

Lemma frame_bind {A B X} (proj : World -> X) (m : M A) (k : A -> M B) :
  frame proj m -> (forall a, frame proj (k a)) -> frame proj (bind m k).
Proof.
  intros Hm Hk w. unfold bind. specialize (Hm w).
  destruct (m w) as [[a|e] w1]; simpl in *.
  - now rewrite Hk.
  - exact Hm.
Qed.

Lemma frame_try_except {A X} (proj : World -> X) classes (m : M A) h :
  frame proj m -> (forall e, frame proj (h e)) ->
  frame proj (try_except classes m h).
Proof.
  intros Hm Hh w. unfold try_except. specialize (Hm w).
  destruct (m w) as [[a|e] w1]; simpl in *; [exact Hm|].
  destruct (caught_by classes e); simpl; [now rewrite Hh | exact Hm].
Qed.

Lemma frame_attempt {A X} (proj : World -> X) (m : M A) :
  frame proj m -> frame proj (attempt m).
Proof. intros Hm w. apply Hm. Qed.

Lemma sendto_timers sock payload addr : frame timers (sendto sock payload addr).
Proof.
  intros w. unfold sendto.
  destruct (sendto_fault w (length (sendto_calls w))); reflexivity.
Qed.

Lemma sendto_random_calls sock payload addr :
  frame random_calls (sendto sock payload addr).
Proof.
  intros w. unfold sendto.
  destruct (sendto_fault w (length (sendto_calls w))); reflexivity.
Qed.

Lemma sendto_clock_calls sock payload addr :
  frame clock_calls (sendto sock payload addr).
Proof.
  intros w. unfold sendto.
  destruct (sendto_fault w (length (sendto_calls w))); reflexivity.
Qed.

Lemma _send_frame {X} (proj : World -> X) (self : StatsClient) (line : string) :
  (forall sock payload addr, frame proj (sendto sock payload addr)) ->
  frame proj (_send self line).
Proof.
  intros H. unfold _send. apply frame_try_except.
  - apply frame_bind; [apply frame_lift | intros; apply H].
  - intros; apply frame_ret.
Qed.

Lemma _after_frame {X} (proj : World -> X) (self : StatsClient) data :
  (forall sock payload addr, frame proj (sendto sock payload addr)) ->
  frame proj (_after self data).
Proof.
  intros H. unfold _after. destruct data as [line|]; [|apply frame_ret].
  destruct (truthy (Some line)); [now apply _send_frame | apply frame_ret].
Qed.

Lemma random_random_timers : frame timers random_random.
Proof. intros w. reflexivity. Qed.

Lemma random_random_clock_calls : frame clock_calls random_random.
Proof. intros w. reflexivity. Qed.

Lemma _prepare_frame {X} (proj : World -> X) self stat value rate :
  frame proj random_random -> frame proj (_prepare self stat value rate).
Proof.
  intros H. unfold _prepare. apply frame_bind.
  - destruct (num_lt rate (PyInt 1)); [|apply frame_ret].
    apply frame_bind; [exact H|]. intros r.
    destruct (num_gt r rate); apply frame_ret.
  - intros [line|]; apply frame_ret.
Qed.

Lemma _send_stat_frame {X} (proj : World -> X) self stat value rate :
  frame proj random_random ->
  (forall sock payload addr, frame proj (sendto sock payload addr)) ->
  frame proj (_send_stat self stat value rate).
Proof.
  intros H1 H2. unfold _send_stat. apply frame_bind.
  - now apply _prepare_frame.
  - intros. now apply _after_frame.
Qed.

Lemma timing_frame {X} (proj : World -> X) self stat delta rate :
  frame proj random_random ->
  (forall sock payload addr, frame proj (sendto sock payload addr)) ->
  frame proj (timing self stat delta rate).
Proof.
  intros H1 H2. unfold timing. apply frame_bind; [apply frame_lift|].
  intros. now apply _send_stat_frame.
Qed.

(** No metric operation touches the store of timers. *)
Lemma timing_timers self stat delta rate : frame timers (timing self stat delta rate).
Proof. apply timing_frame; [apply random_random_timers | apply sendto_timers]. Qed.

Lemma timing_clock_calls self stat delta rate :
  frame clock_calls (timing self stat delta rate).
Proof.
  apply timing_frame; [apply random_random_clock_calls | apply sendto_clock_calls].
Qed.

(** *** The funnel: every operation ends in [_send_stat] *)

Lemma run_call_send_stat (self : StatsClient) (c : metric_call) (v : string) :
  value_portion c = inr v ->
  forall w, run_call self c w = _send_stat self (call_stat c) v (call_rate c) w.
Proof.
  intros Hv w. destruct c as [stat count rate|stat count rate|stat value rate|stat delta rate];
    simpl in *.
  - injection Hv as <-. reflexivity.
  - unfold decr, bind. destruct (val_neg count) as [e|count']; [discriminate|].
    injection Hv as <-. reflexivity.
  - injection Hv as <-. reflexivity.
  - unfold timing, bind. destruct (format_f6 delta) as [e|text]; [discriminate|].
    injection Hv as <-. reflexivity.
Qed.

(** At full rate: no draw, and the line goes to [_send]. *)
Lemma _prepare_full_rate self stat value rate w :
  num_lt rate (PyInt 1) = false ->
  _prepare self stat value rate w =
    (Return (Some (wire_name self stat +:+ ":" +:+ value)), w).
Proof. intros H. unfold _prepare, bind. rewrite H. reflexivity. Qed.

(** Below full rate, a draw above the rate: one draw, no line. *)
Lemma _prepare_dropped self stat value rate w :
  num_lt rate (PyInt 1) = true -> num_gt (next_draw w) rate = true ->
  _prepare self stat value rate w = (Return None, drawn w).
Proof.
  intros H1 H2. unfold _prepare, bind. rewrite H1. simpl.
  fold (next_draw w). rewrite H2. reflexivity.
Qed.

(** Below full rate, a draw not above the rate: one draw, the annotated
    line. *)
Lemma _prepare_sampled self stat value rate w :
  num_lt rate (PyInt 1) = true -> num_gt (next_draw w) rate = false ->
  _prepare self stat value rate w =
    (Return (Some (wire_name self stat +:+ ":" +:+ value +:+ "|@" +:+ str_of_num rate)),
     drawn w).
Proof.
  intros H1 H2. unfold _prepare, bind. rewrite H1. simpl.
  fold (next_draw w). rewrite H2. reflexivity.
Qed.

Lemma _send_stat_line self stat value rate w line w1 :
  _prepare self stat value rate w = (Return (Some (line)), w1) ->
  truthy (Some line) = true ->
  _send_stat self stat value rate w = _send self line w1.
Proof.
  intros H Ht. unfold _send_stat, bind. rewrite H. unfold _after.
  now rewrite Ht.
Qed.

Lemma _send_stat_none self stat value rate w w1 :
  _prepare self stat value rate w = (Return None, w1) ->
  _send_stat self stat value rate w = (Return tt, w1).
Proof. intros H. unfold _send_stat, bind. rewrite H. reflexivity. Qed.

(** A call whose value does not format raises there, and nothing else
    happens. *)
Lemma run_call_raises (self : StatsClient) (c : metric_call) (e : exn) (w : World) :
  value_portion c = inl e -> run_call self c w = (Raise e, w).
Proof.
  destruct c as [stat count rate|stat count rate|stat value rate|stat delta rate];
    simpl; try discriminate.
  - unfold decr, bind. destruct (val_neg count); [|discriminate].
    now intros [= ->].
  - unfold timing, bind. destruct (format_f6 delta); [|discriminate].
    now intros [= ->].
Qed.

(* ------------------------------------------------------------------ *)
(** ** Sampling *)
(* ------------------------------------------------------------------ *)

(** C1, as stated, fails on a call whose value does not format:
    [timing('foo', 2**1024, rate=1)] is a call at rate [1], and it raises
    [OverflowError] in ['%0.6f|ms' % delta], before [_send_stat] is
    reached; no line is produced and the world is as it was. *)
Lemma sampling_gate_overflow_no_line :
  num_eq (call_rate (CallTiming "foo" (PyInt (2 ^ 1024)) (PyInt 1))) (PyInt 1)
    = true /\
  run_call (test_client None) (CallTiming "foo" (PyInt (2 ^ 1024)) (PyInt 1))
           (world0 (PyInt (-1)))
    = (Raise (Exn OverflowError "int too large to convert to float"),
       world0 (PyInt (-1))).
Proof.
  split; [reflexivity|].
  apply run_call_raises. vm_compute. reflexivity.
Qed.

(** C1, amended.  For a call of [incr], [decr], [set] or [timing] that
    has formatted its value, with value portion [v], at rate [r]:
    - when [r == 1], [random.random()] is not called, [_prepare] returns
      the line [name:v] without a rate annotation, and the call is one call
      of [_send] on that line;
    - when [0 < r < 1], [random.random()] is called once; if the draw is
      strictly greater than [r], [_prepare] returns [None] and the call ends
      there, nothing sent; if not, [_prepare] returns the one line
      [name:v|@r], the rate appended to the value portion, and the call is
      one call of [_send] on that line. *)
Theorem sampling_gate :
  forall (self : StatsClient) (c : metric_call) (v : string) (w : World),
    value_portion c = inr v ->
    let r := call_rate c in
    let name := wire_name self (call_stat c) in
    (num_eq r (PyInt 1) = true ->
       _prepare self (call_stat c) v r w
         = (Return (Some (name +:+ ":" +:+ v)), w) /\
       run_call self c w = _send self (name +:+ ":" +:+ v) w /\
       random_calls (snd (run_call self c w)) = random_calls w) /\
    (num_lt (PyInt 0) r = true -> num_lt r (PyInt 1) = true ->
       (num_gt (next_draw w) r = true ->
          _prepare self (call_stat c) v r w = (Return None, drawn w) /\
          run_call self c w = (Return tt, drawn w)) /\
       (num_gt (next_draw w) r = false ->
          let line := name +:+ ":" +:+ v +:+ "|@" +:+ str_of_num r in
          _prepare self (call_stat c) v r w = (Return (Some line), drawn w) /\
          run_call self c w = _send self line (drawn w))).
Proof.
  intros self c v w Hv r name. split.
  - intros Hr. apply num_eq_not_lt in Hr.
    pose proof (_prepare_full_rate self (call_stat c) v r w Hr) as Hp.
    assert (Hrun : run_call self c w = _send self (name +:+ ":" +:+ v) w).
    { rewrite (run_call_send_stat self c v Hv).
      apply (_send_stat_line _ _ _ _ _ _ _ Hp), line_truthy. }
    repeat split; [exact Hp | exact Hrun |].
    rewrite Hrun. apply (_send_frame random_calls), sendto_random_calls.
  - intros _ Hr. split; intros Hd.
    + pose proof (_prepare_dropped self (call_stat c) v r w Hr Hd) as Hp.
      split; [exact Hp|].
      rewrite (run_call_send_stat self c v Hv).
      now apply _send_stat_none.
    + pose proof (_prepare_sampled self (call_stat c) v r w Hr Hd) as Hp.
      split; [exact Hp|].
      rewrite (run_call_send_stat self c v Hv).
      apply (_send_stat_line _ _ _ _ _ _ _ Hp).
      apply (line_truthy name (v +:+ "|@" +:+ str_of_num r)).
Qed.

(** [incr('foo', 10, rate=0.5)] with the draw pinned at [-1], as in
    [test_incr_udp]: the annotated line goes out. *)
Lemma sampling_gate_witness :
  run_call (test_client None) (CallIncr "foo" (VNum (PyInt 10)) (PyFloat half))
           (world0 (PyInt (-1)))
  = _send (test_client None) "foo:10|c|@0.5" (drawn (world0 (PyInt (-1)))).
Proof.
  refine (proj2 (proj2 (proj2 (sampling_gate (test_client None)
            (CallIncr "foo" (VNum (PyInt 10)) (PyFloat half)) "10|c"
            (world0 (PyInt (-1))) eq_refl) _ _) _)); vm_compute; reflexivity.
Defined.

(* ------------------------------------------------------------------ *)
(** ** The prefix *)
(* ------------------------------------------------------------------ *)


(** Every line [_prepare] returns is the wire name, a colon and the rest. *)
Lemma _prepare_shape self stat value rate w line w1 :
  _prepare self stat value rate w = (Return (Some line), w1) ->
  exists rest, line = wire_name self stat +:+ ":" +:+ rest.
Proof.
  unfold _prepare, bind. destruct (num_lt rate (PyInt 1)).
  - simpl. destruct (num_gt _ rate); simpl; intros [= <- _]; eauto.
  - simpl. intros [= <- _]; eauto.
Qed.

Lemma _prepare_sendto_calls self stat value rate :
  frame sendto_calls (_prepare self stat value rate).
Proof. apply _prepare_frame. intros w. reflexivity. Qed.

(** [_send] calls [sendto] once when the line encodes, and not at all
    when it does not. *)
Lemma _send_sendto_calls (self : StatsClient) (line : string) (w : World) :
  sendto_calls (snd (_send self line w)) =
    if is_ascii line
    then sendto_calls w ++ [(_sock self, list_byte_of_string line, _addr self)]
    else sendto_calls w.
Proof.
  unfold _send, try_except, bind, lift, encode_ascii.
  destruct (is_ascii line); simpl; [|reflexivity].
  unfold sendto. destruct (sendto_fault w (length (sendto_calls w))); simpl;
    [case_match|]; reflexivity.
Qed.

(** One call of an operation: at most one call of [sendto], and its
    payload starts with the wire name of the stat. *)
Lemma run_call_sendto_calls (self : StatsClient) (c : metric_call) (w : World) :
  sendto_calls (snd (run_call self c w)) = sendto_calls w \/
  exists rest,
    sendto_calls (snd (run_call self c w)) =
      sendto_calls w ++
      [(_sock self,
        list_byte_of_string (wire_name self (call_stat c) +:+ ":" +:+ rest),
        _addr self)].
Proof.
  destruct (value_portion c) as [e|v] eqn:Hv.
  - left. now rewrite (run_call_raises self c e w Hv).
  - rewrite (run_call_send_stat self c v Hv). unfold _send_stat, bind.
    pose proof (_prepare_sendto_calls self (call_stat c) v (call_rate c) w) as Hf.
    destruct (_prepare self (call_stat c) v (call_rate c) w) as [[[line|]|e] w1] eqn:Hp;
      simpl in Hf; try (left; exact Hf).
    destruct (_prepare_shape _ _ _ _ _ _ _ Hp) as [rest ->].
    unfold _after. rewrite line_truthy, _send_sendto_calls, Hf.
    destruct (is_ascii _); [right; eauto | now left].
Qed.

(** C8.  The name that goes on the wire is [prefix.stat] when the client
    has a prefix (a non-empty string), and [stat] as given when it has
    none ([None] or the empty string).  Every line [_prepare] returns, for
    each of the four operations, starts with that name and a colon; and
    over any sequence of operations on a client, every payload handed to
    [sendto] does.  With the prefix [foo], [incr('bar')] sends
    [foo.bar:1|c]. *)
Theorem prefix_prepended :
  forall (self : StatsClient) (cs : list metric_call) (w : World),
    (forall p stat, _prefix self = Some p -> p <> ""%string ->
       wire_name self stat = p +:+ "." +:+ stat) /\
    (forall stat, truthy (_prefix self) = false -> wire_name self stat = stat) /\
    (forall c v w0 line w1,
       value_portion c = inr v ->
       _prepare self (call_stat c) v (call_rate c) w0 = (Return (Some line), w1) ->
       exists rest, line = wire_name self (call_stat c) +:+ ":" +:+ rest) /\
    (exists new,
       sendto_calls (snd (run_calls self cs w)) = sendto_calls w ++ new /\
       Forall (fun call =>
                 exists c rest, In c cs /\
                   snd (fst call) =
                     list_byte_of_string
                       (wire_name self (call_stat c) +:+ ":" +:+ rest)) new) /\
    payloads (snd (incr (test_client (Some "foo"%string)) "bar" (VNum (PyInt 1))
                        (PyInt 1) (world0 (PyInt (-1)))))
      = ["foo.bar:1|c"%string].
Proof.
  intros self cs w. split; [|split; [|split; [|split]]].
  - intros p stat. apply wire_name_prefix.
  - intros stat. apply wire_name_no_prefix.
  - intros c v w0 line w1 _. apply _prepare_shape.
  - revert w. induction cs as [|c cs IH]; intros w.
    + exists []. simpl. split; [now rewrite app_nil_r | constructor].
    + simpl. unfold bind, attempt. simpl.
      destruct (IH (snd (run_call self c w))) as (new & Hnew & Hall).
      assert (Hall' : Forall (fun call =>
                 exists c0 rest, In c0 (c :: cs) /\
                   snd (fst call) =
                     list_byte_of_string
                       (wire_name self (call_stat c0) +:+ ":" +:+ rest)) new).
      { eapply Forall_impl; [exact Hall|].
        intros call (c0 & rest & Hin & Heq). exists c0, rest. split; [now right|exact Heq]. }
      destruct (run_call_sendto_calls self c w) as [Hc|[rest Hc]].
      * exists new. rewrite Hnew, Hc. split; [reflexivity|exact Hall'].
      * exists ((_sock self,
                 list_byte_of_string (wire_name self (call_stat c) +:+ ":" +:+ rest),
                 _addr self) :: new).
        rewrite Hnew, Hc, <- app_assoc. split; [reflexivity|].
        constructor; [|exact Hall']. exists c, rest. split; [now left|reflexivity].
  - vm_compute. reflexivity.
Qed.

(* ------------------------------------------------------------------ *)
(** ** Decrement *)
(* ------------------------------------------------------------------ *)

Lemma str_of_num_neg (x : pynum) :
  plus_signed x = true -> str_of_num (num_neg x) = "-" +:+ str_of_num x.
Proof.
  destruct x as [n|f]; cbn [plus_signed num_neg str_of_num].
  - destruct n; try discriminate. reflexivity.
  - destruct f as [s|s| |s m e]; try discriminate;
      destruct s; try discriminate; reflexivity.
Qed.

(** C9.  [decr(stat, n, rate)] is [incr(stat, -n, rate)]: the two calls
    go through [_send_stat] with the same stat and rate, on [str(n)|c]
    and on [str(-n)|c], and these two texts differ by the minus sign in
    front: it is on the one and not on the other.  [decr('foo', 5)] sends
    [foo:-5|c]. *)
Theorem decr_is_incr_negated :
  forall (self : StatsClient) (stat : string) (n rate : pynum) (w : World),
    decr self stat (VNum n) rate w = incr self stat (VNum (num_neg n)) rate w /\
    incr self stat (VNum n) rate w
      = _send_stat self stat (str_of_num n +:+ "|c") rate w /\
    decr self stat (VNum n) rate w
      = _send_stat self stat (str_of_num (num_neg n) +:+ "|c") rate w /\
    (plus_signed n = true ->
       str_of_num (num_neg n) = "-" +:+ str_of_num n) /\
    (plus_signed (num_neg n) = true ->
       str_of_num n = "-" +:+ str_of_num (num_neg n)) /\
    payloads (snd (decr (test_client None) "foo" (VNum (PyInt 5)) (PyInt 1)
                        (world0 (PyInt (-1)))))
      = ["foo:-5|c"%string].
Proof.
  intros self stat n rate w.
  split; [reflexivity|]. split; [reflexivity|]. split; [reflexivity|].
  split; [apply str_of_num_neg|]. split.
  - intros H. apply str_of_num_neg in H. now rewrite num_neg_involutive in H.
  - vm_compute. reflexivity.
Qed.

(* ------------------------------------------------------------------ *)
(** ** Timing values *)
(* ------------------------------------------------------------------ *)

(** *** Rounding an [int] to a double never yields a NaN *)

Lemma shr_1_nonneg (mrs : shr_record) : 0 <= shr_m mrs -> 0 <= shr_m (shr_1 mrs).
Proof.
  destruct mrs as [m r s]. simpl.
  destruct m as [|[p|p|]|[p|p|]]; simpl; lia.
Qed.

Lemma iter_pos_invariant {A} (P : A -> Prop) (f : A -> A) :
  (forall x, P x -> P (f x)) ->
  forall p x, P x -> P (SpecFloat.iter_pos f p x).
Proof.
  intros Hf. induction p as [p IH|p IH|]; intros x Hx; simpl; auto.
Qed.

Lemma shr_nonneg (mrs : shr_record) (e n : Z) :
  0 <= shr_m mrs -> 0 <= shr_m (fst (shr mrs e n)).
Proof.
  intros H. unfold shr. destruct n as [|p|p]; simpl; auto.
  apply (iter_pos_invariant (fun r => 0 <= shr_m r)); auto using shr_1_nonneg.
Qed.

Lemma shr_fexp_nonneg (m e : Z) (l : location) :
  0 <= m -> 0 <= shr_m (fst (shr_fexp prec emax m e l)).
Proof.
  intros H. unfold shr_fexp. apply shr_nonneg.
  destruct l as [|[]]; exact H.
Qed.

Lemma round_nearest_even_nonneg (m : Z) (l : location) :
  0 <= m -> 0 <= round_nearest_even m l.
Proof.
  intros H. unfold round_nearest_even.
  destruct l as [|[]]; try lia. destruct (Z.even m); lia.
Qed.

Lemma binary_round_aux_not_nan (s : bool) (m e : Z) (l : location) :
  0 <= m -> binary_round_aux prec emax s m e l <> S754_nan.
Proof.
  intros H. unfold binary_round_aux.
  pose proof (shr_fexp_nonneg m e l H) as H1.
  destruct (shr_fexp prec emax m e l) as [mrs' e'] eqn:E1. simpl in H1.
  pose proof (shr_fexp_nonneg _ e' loc_Exact
                (round_nearest_even_nonneg _ (loc_of_shr_record mrs') H1)) as H2.
  destruct (shr_fexp prec emax (round_nearest_even _ _) e' loc_Exact)
    as [mrs'' e''] eqn:E2. simpl in H2.
  destruct (shr_m mrs'') as [|p|p]; try discriminate; [|lia].
  destruct (e'' <=? emax - prec); discriminate.
Qed.

Lemma binary_normalize_not_nan (n : Z) :
  binary_normalize prec emax n 0 false <> S754_nan.
Proof.
  destruct n as [|p|p]; simpl; try discriminate;
    unfold binary_round;
    destruct (shl_align _ _ _) as [mz ez];
    now apply binary_round_aux_not_nan.
Qed.

(** What [float()] returns for an [int] is a zero or a finite double. *)
Lemma float_of_int_finite (n : Z) (f : spec_float) :
  float_of_int n = inr f ->
  (exists s, f = S754_zero s) \/ (exists s m e, f = S754_finite s m e).
Proof.
  unfold float_of_int. pose proof (binary_normalize_not_nan n) as Hn.
  destruct (binary_normalize prec emax n 0 false) as [s|s| |s m e];
    intros [= <-]; [left|contradiction|right]; eauto.
Qed.

(** *** The shape of the text *)

Lemma is_digit_digit_char (d : nat) : is_digit (digit_char d) = true.
Proof. do 10 (destruct d as [|d]; [reflexivity|]). reflexivity. Qed.

Lemma all_digits_frac6 (r : Z) : all_digits (frac6 r) = true.
Proof.
  unfold frac6, digit_at. cbn [all_digits].
  now rewrite !is_digit_digit_char.
Qed.

Lemma length_frac6 (r : Z) : String.length (frac6 r) = 6%nat.
Proof. reflexivity. Qed.

Lemma all_digits_uint (d : Decimal.uint) :
  all_digits (NilEmpty.string_of_uint d) = true.
Proof. induction d; simpl; auto. Qed.

Lemma string_of_uint_nonempty (d : Decimal.uint) :
  d <> Decimal.Nil -> NilEmpty.string_of_uint d <> ""%string.
Proof. destruct d; simpl; congruence. Qed.

Lemma str_of_int_nonneg (n : Z) :
  0 <= n -> all_digits (str_of_int n) = true /\ str_of_int n <> ""%string.
Proof.
  intros H. unfold str_of_int. destruct n as [|p|p]; [| |lia].
  - split; [reflexivity|discriminate].
  - cbn [Z.to_int NilZero.string_of_int]. unfold NilZero.string_of_uint.
    pose proof (DecimalPos.Unsigned.to_uint_nonnil p) as Hp.
    destruct (Pos.to_uint p) eqn:E; try contradiction;
      (split; [apply (all_digits_uint (_ _)) | discriminate]).
Qed.

Lemma round_half_even_nonneg (num den : Z) :
  0 <= num -> 0 < den -> 0 <= round_half_even num den.
Proof.
  intros Hn Hd. unfold round_half_even.
  pose proof (Z.div_pos num den Hn Hd).
  destruct (2 * (num mod den) ?= den); [destruct (Z.even _)| |]; lia.
Qed.

Lemma millionths_nonneg (m : positive) (e : Z) : 0 <= millionths m e.
Proof.
  unfold millionths. destruct (0 <=? e) eqn:He.
  - apply Z.leb_le in He.
    pose proof (Z.pow_nonneg 2 e). pose proof (Z.pow_nonneg 10 6). nia.
  - apply Z.leb_gt in He. apply round_half_even_nonneg.
    + pose proof (Z.pow_nonneg 10 6). nia.
    + apply Z.pow_pos_nonneg; lia.
Qed.

Lemma fixed_six_fixed6 (s : bool) (n : Z) :
  0 <= n -> fixed_six (sign_str s +:+ fixed6 n).
Proof.
  intros Hn. exists s, (str_of_int (n / 10 ^ 6)), (frac6 (n mod 10 ^ 6)).
  assert (H : 0 <= n / 10 ^ 6) by (apply Z.div_pos; lia).
  destruct (str_of_int_nonneg _ H) as [Hd Hne].
  repeat split; auto using all_digits_frac6.
Qed.

(** ['%0.6f'] of a zero or a finite double is in plain decimal notation
    with six decimals. *)
Lemma format_f6_float_fixed (f : spec_float) :
  finite_ms (PyFloat f) -> fixed_six (format_f6_float f).
Proof.
  destruct f as [s|s| |s m e]; simpl; try contradiction; intros _.
  - apply fixed_six_fixed6. lia.
  - apply fixed_six_fixed6, millionths_nonneg.
Qed.

Lemma format_f6_fixed (delta : pynum) :
  finite_ms delta ->
  exists text, format_f6 delta = inr text /\ fixed_six text.
Proof.
  destruct delta as [n|f]; cbn [finite_ms format_f6].
  - intros [f Hf]. rewrite Hf. exists (format_f6_float f). split; [reflexivity|].
    apply format_f6_float_fixed.
    destruct (float_of_int_finite n f Hf) as [[s ->]|(s & m & e & ->)]; exact I.
  - intros H. exists (format_f6_float f). split; [reflexivity|].
    now apply format_f6_float_fixed.
Qed.

Lemma string_length_app (s1 s2 : string) :
  String.length (s1 +:+ s2) = (String.length s1 + String.length s2)%nat.
Proof. induction s1 as [|a s1 IH]; simpl; [reflexivity|now rewrite IH]. Qed.

Lemma fixed_six_length (text : string) :
  fixed_six text -> (8 <= String.length text)%nat.
Proof.
  intros (s & ip & fp & -> & Hne & _ & _ & Hlen).
  rewrite !string_length_app, Hlen. destruct ip; [congruence|]. simpl. lia.
Qed.

(** C7, as stated, fails on an [int] beyond the range of a double:
    [timing('foo', 2**1024)] raises [OverflowError] while formatting; no
    text is rendered and nothing reaches the socket. *)
Lemma timing_huge_int_raises :
  format_f6 (PyInt (2 ^ 1024))
    = inl (Exn OverflowError "int too large to convert to float") /\
  timing (test_client None) "foo" (PyInt (2 ^ 1024)) (PyInt 1) (world0 (PyInt (-1)))
    = (Raise (Exn OverflowError "int too large to convert to float"),
       world0 (PyInt (-1))).
Proof.
  assert (H : format_f6 (PyInt (2 ^ 1024))
              = inl (Exn OverflowError "int too large to convert to float"))
    by (vm_compute; reflexivity).
  split; [exact H|]. unfold timing, bind. rewrite H. reflexivity.
Qed.

(** An infinite or NaN [float] is rendered as a word, without decimals. *)
Lemma timing_infinity_not_fixed :
  format_f6 (PyFloat (S754_infinity false)) = inr "inf"%string /\
  format_f6 (PyFloat S754_nan) = inr "nan"%string /\
  ~ fixed_six "inf" /\ ~ fixed_six "nan" /\
  payloads (snd (timing (test_client None) "foo" (PyFloat (S754_infinity false))
                        (PyInt 1) (world0 (PyInt (-1)))))
    = ["foo:inf|ms"%string].
Proof.
  split; [reflexivity|]. split; [reflexivity|].
  split; [intros H; apply fixed_six_length in H; simpl in H; lia|].
  split; [intros H; apply fixed_six_length in H; simpl in H; lia|].
  vm_compute. reflexivity.
Qed.

(** C7, amended.  For every stat name and every millisecond value that is
    a finite [float] or an [int] within the range of a double,
    [timing(stat, ms)] renders the value in plain decimal notation with
    exactly six decimals, whatever its magnitude, and never with an
    exponent; at any rate the value portion handed on is that text and
    [|ms].  [timing('foo', 100)] sends [foo:100.000000|ms], and
    [1234568901234] renders as [1234568901234.000000]. *)
Theorem timing_six_decimals :
  forall (self : StatsClient) (stat : string) (delta : pynum),
    finite_ms delta ->
    (exists text,
       format_f6 delta = inr text /\ fixed_six text /\
       (forall rate w,
          timing self stat delta rate w
            = _send_stat self stat (text +:+ "|ms") rate w) /\
       (forall w,
          timing self stat delta (PyInt 1) w
            = _send self (wire_name self stat +:+ ":" +:+ text +:+ "|ms") w)) /\
    format_f6 (PyInt 100) = inr "100.000000"%string /\
    format_f6 (PyInt 1234568901234) = inr "1234568901234.000000"%string /\
    payloads (snd (timing (test_client None) "foo" (PyInt 100) (PyInt 1)
                          (world0 (PyInt (-1)))))
      = ["foo:100.000000|ms"%string].
Proof.
  intros self stat delta Hfin.
  split; [|split; [|split]];
    [|vm_compute; reflexivity|vm_compute; reflexivity|vm_compute; reflexivity].
  destruct (format_f6_fixed delta Hfin) as (text & Htext & Hfixed).
  exists text. split; [exact Htext|]. split; [exact Hfixed|].
  assert (Hrun : forall rate w,
            timing self stat delta rate w
              = _send_stat self stat (text +:+ "|ms") rate w).
  { intros rate w. unfold timing, bind. rewrite Htext. reflexivity. }
  split; [exact Hrun|].
  intros w. rewrite Hrun.
  apply (_send_stat_line self stat (text +:+ "|ms") (PyInt 1) w _ w).
  - now apply _prepare_full_rate.
  - apply line_truthy.
Qed.

(** The large integer of [test_big_numbers]. *)
Lemma timing_six_decimals_witness :
  exists text,
    format_f6 (PyInt 1234568901234) = inr text /\ fixed_six text /\
    (forall rate w,
       timing (test_client None) "foo" (PyInt 1234568901234) rate w
         = _send_stat (test_client None) "foo" (text +:+ "|ms") rate w) /\
    (forall w,
       timing (test_client None) "foo" (PyInt 1234568901234) (PyInt 1) w
         = _send (test_client None)
                 (wire_name (test_client None) "foo" +:+ ":" +:+ text +:+ "|ms") w).
Proof.
  refine (proj1 (timing_six_decimals (test_client None) "foo"
                   (PyInt 1234568901234) _)).
  eexists. vm_compute. reflexivity.
Defined.

(* ------------------------------------------------------------------ *)
(** ** The transport *)
(* ------------------------------------------------------------------ *)

(** A line that does not encode never reaches [sendto]: the exception
    of the encoding step leaves [_send]. *)
Lemma _send_non_ascii (self : StatsClient) (line : string) (w : World) :
  is_ascii line = false ->
  _send self line w
  = (Raise (Exn UnicodeEncodeError
              "'ascii' codec can't encode character: ordinal not in range(128)"),
     w).
Proof.
  intros H. unfold _send, try_except, bind, lift, encode_ascii. rewrite H.
  reflexivity.
Qed.

(** C5, as stated, fails on a line with a character outside ASCII: the
    encoding step raises [UnicodeEncodeError], which is neither a
    [socket.error] nor a [RuntimeError], and it escapes from [_send]. *)
Lemma _send_non_ascii_escapes :
  _send (test_client None) (e_acute +:+ ":1|c") (world0 (PyInt (-1)))
  = (Raise (Exn UnicodeEncodeError
              "'ascii' codec can't encode character: ordinal not in range(128)"),
     world0 (PyInt (-1))).
Proof. apply _send_non_ascii. reflexivity. Qed.

(** So does it from the public call. *)
Lemma incr_non_ascii_escapes :
  incr (test_client None) e_acute (VNum (PyInt 1)) (PyInt 1) (world0 (PyInt (-1)))
  = (Raise (Exn UnicodeEncodeError
              "'ascii' codec can't encode character: ordinal not in range(128)"),
     world0 (PyInt (-1))).
Proof.
  unfold incr.
  rewrite (_send_stat_line _ _ _ _ _ _ _
             (_prepare_full_rate (test_client None) e_acute _ (PyInt 1) _ eq_refl)
             (line_truthy _ _)).
  apply _send_non_ascii. reflexivity.
Qed.

(** C5, amended.  For every line of ASCII characters, when the error that
    [sendto] raises, if any, is a [socket.error] (a timeout, an unreachable
    host, a socket fault) or a [RuntimeError]: [_send] returns normally, it
    calls [sendto] once with the encoded line and the client's address, and
    one datagram leaves when [sendto] succeeds and none when it raises. *)
Theorem _send_absorbs_transport_errors :
  forall (self : StatsClient) (line : string) (w : World),
    is_ascii line = true ->
    (forall e, sendto_fault w (length (sendto_calls w)) = Some e ->
               caught_by [OSError; RuntimeError] e = true) ->
    exists w',
      _send self line w = (Return tt, w') /\
      sendto_calls w'
        = sendto_calls w ++ [(_sock self, list_byte_of_string line, _addr self)] /\
      datagrams w'
        = match sendto_fault w (length (sendto_calls w)) with
          | None => datagrams w ++ [(list_byte_of_string line, _addr self)]
          | Some _ => datagrams w
          end.
Proof.
  intros self line w Hascii Hfault.
  unfold _send, try_except, bind, lift, encode_ascii. rewrite Hascii.
  unfold ret, sendto.
  destruct (sendto_fault w (length (sendto_calls w))) as [e|].
  - rewrite (Hfault e eq_refl). eexists. repeat split.
  - eexists. repeat split.
Qed.

(** The socket of [test_socket_error] times out; [_send] returns, the
    call is on record and no datagram has left. *)
Lemma _send_absorbs_transport_errors_witness :
  exists w',
    _send (test_client None) "foo:1|c" world_timeout = (Return tt, w') /\
    sendto_calls w'
      = [(Socket AF_INET SOCK_DGRAM, list_byte_of_string "foo:1|c",
          Addr4 "127.0.0.1" 8125)] /\
    datagrams w' = [].
Proof.
  refine (_send_absorbs_transport_errors (test_client None) "foo:1|c"
            world_timeout eq_refl _).
  intros e H. injection H as <-. reflexivity.
Defined.

(* ------------------------------------------------------------------ *)
(** ** Construction *)
(* ------------------------------------------------------------------ *)

(** C6, evaluated.  The call of [test_ipv6_resolution_udp],
    [StatsClient(host='localhost', port=8125, ipv6=True)], raises
    [TypeError]: [__init__] declares no address-family parameter.
    [__init__] asks [getaddrinfo] once, always for [AF_INET], and opens a
    datagram socket of the family of the first answer; for [localhost] the
    address is the IPv4 one. *)
Theorem init_resolves_ipv4_only :
  (forall w,
     new_StatsClient [("host"%string, ArgStr "localhost");
                      ("port"%string, ArgInt 8125);
                      ("ipv6"%string, ArgBool true)] w
     = (Raise (Exn TypeError
                 "__init__() got an unexpected keyword argument 'ipv6'"), w)) /\
  (forall host port prefix size w,
     getaddrinfo_calls (snd (__init__ host port prefix size w))
       = getaddrinfo_calls w ++ [(host, port, AF_INET, SOCK_DGRAM)]) /\
  (forall host port prefix size w self w',
     __init__ host port prefix size w = (Return self, w') ->
     (exists kind proto name rest,
        resolver w host port AF_INET SOCK_DGRAM
          = inr ((sock_family (_sock self), kind, proto, name, _addr self) :: rest)) /\
     sock_kind (_sock self) = SOCK_DGRAM /\
     sockets w' = sockets w ++ [_sock self] /\
     _prefix self = prefix) /\
  fst (__init__ "localhost" 8125 None 512 (world0 (PyInt (-1))))
    = Return (test_client None).
Proof.
  split; [|split; [|split]].
  - intros w. reflexivity.
  - intros host port prefix size w. unfold __init__, bind, getaddrinfo.
    destruct (resolver w host port AF_INET SOCK_DGRAM) as [e|[|[[[[fam k] pr] nm] addr] rest]];
      reflexivity.
  - intros host port prefix size w self w'. unfold __init__, bind, getaddrinfo.
    destruct (resolver w host port AF_INET SOCK_DGRAM) as [e|[|[[[[fam k] pr] nm] addr] rest]];
      simpl; try discriminate.
    intros [= <- <-]. simpl. repeat split. eauto.
  - vm_compute. reflexivity.
Qed.

(* ------------------------------------------------------------------ *)
(** ** The timer: reading and writing the object *)
(* ------------------------------------------------------------------ *)

Lemma with_timer_lookup (t : ref) (o o' : Timer.obj) (w : World) :
  timers w !! t = Some o -> timers (with_timer t o' w) !! t = Some o'.
Proof.
  intros H. unfold with_timer. simpl.
  apply list_lookup_insert_eq. now apply lookup_lt_Some in H.
Qed.

Lemma with_timer_twice (t : ref) (o1 o2 : Timer.obj) (w : World) :
  with_timer t o2 (with_timer t o1 w) = with_timer t o2 w.
Proof. unfold with_timer. simpl. now rewrite list_insert_insert_eq. Qed.

Lemma with_timer_length (t : ref) (o : Timer.obj) (w : World) :
  length (timers (with_timer t o w)) = length (timers w).
Proof. unfold with_timer. simpl. apply length_insert. Qed.

Lemma get_timer_eq (t : ref) (o : Timer.obj) (w : World) :
  timers w !! t = Some o -> get_timer t w = (Return o, w).
Proof. intros H. unfold get_timer. now rewrite H. Qed.

Lemma update_timer_eq (t : ref) (o : Timer.obj) (f : Timer.obj -> Timer.obj)
    (w : World) :
  timers w !! t = Some o ->
  update_timer t f w = (Return tt, with_timer t (f o) w).
Proof.
  intros H. unfold update_timer, bind. rewrite (get_timer_eq t o w H).
  reflexivity.
Qed.

(** [Timer.__init__] stores an object with nothing recorded. *)
Lemma timer_new (client : StatsClient) (stat : string) (rate : pynum) (w : World) :
  exists w',
    timer client stat rate w = (Return (length (timers w)), w') /\
    timers w' !! length (timers w)
      = Some (Timer.Obj client stat rate None false None) /\
    length (timers w') = S (length (timers w)).
Proof.
  eexists. split; [reflexivity|]. simpl. split.
  - rewrite lookup_app_r by lia. now rewrite Nat.sub_diag.
  - rewrite length_app. simpl. lia.
Qed.

Lemma time_now_eq (w : World) : time_now w = (Return (next_time w), ticked w).
Proof. reflexivity. Qed.

(** [start]: the fields are reset and the clock is read once. *)
Lemma start_eq (t : ref) (o : Timer.obj) (w : World) :
  timers w !! t = Some o ->
  start t w =
    (Return t,
     with_timer t
       (set_start_time (Some (next_time w)) (set_sent false (set_ms None o)))
       (ticked w)).
Proof.
  intros H. unfold start, bind.
  rewrite (update_timer_eq t o _ w H).
  pose proof (with_timer_lookup t o (set_ms None o) w H) as H1.
  rewrite (update_timer_eq t _ _ _ H1), with_timer_twice.
  pose proof (with_timer_lookup t o (set_sent false (set_ms None o)) w H) as H2.
  rewrite time_now_eq.
  assert (H3 : timers (ticked (with_timer t (set_sent false (set_ms None o)) w)) !! t
               = Some (set_sent false (set_ms None o))) by exact H2.
  rewrite (update_timer_eq t _ _ _ H3).
  unfold with_timer, ticked, next_time, ret. simpl.
  now rewrite list_insert_insert_eq.
Qed.

(** [send] on a stopped, unsent timer: the flag is set and [timing] is
    called. *)
Lemma send_eq (t : ref) (o : Timer.obj) (x : spec_float) (w : World) :
  timers w !! t = Some o -> Timer.ms o = Some x -> Timer._sent o = false ->
  send t w =
    timing (Timer.client o) (Timer.stat o) (PyFloat x) (Timer.rate o)
           (with_timer t (set_sent true o) w).
Proof.
  intros H Hms Hsent. unfold send, bind.
  rewrite (get_timer_eq t o w H), Hms, Hsent.
  rewrite (update_timer_eq t o _ w H). reflexivity.
Qed.

Lemma send_no_data (t : ref) (o : Timer.obj) (w : World) :
  timers w !! t = Some o -> Timer.ms o = None ->
  send t w = (Raise (Exn RuntimeError "No data recorded."), w).
Proof.
  intros H Hms. unfold send, bind.
  now rewrite (get_timer_eq t o w H), Hms.
Qed.

Lemma send_already_sent (t : ref) (o : Timer.obj) (x : spec_float) (w : World) :
  timers w !! t = Some o -> Timer.ms o = Some x -> Timer._sent o = true ->
  send t w = (Raise (Exn RuntimeError "Already sent data."), w).
Proof.
  intros H Hms Hsent. unfold send, bind.
  now rewrite (get_timer_eq t o w H), Hms, Hsent.
Qed.

Lemma stop_not_started (t : ref) (o : Timer.obj) (b : bool) (w : World) :
  timers w !! t = Some o -> Timer._start_time o = None ->
  stop t b w = (Raise (Exn RuntimeError "Timer has not started."), w).
Proof.
  intros H Hst. unfold stop, bind.
  now rewrite (get_timer_eq t o w H), Hst.
Qed.

(** [stop]: the clock is read once, the elapsed time is stored, and
    [send] runs when asked. *)
Lemma stop_eq (t : ref) (o : Timer.obj) (st : spec_float) (b : bool) (w : World) :
  timers w !! t = Some o -> Timer._start_time o = Some st ->
  let w1 := with_timer t (set_ms (Some (to_ms (float_sub (next_time w) st))) o)
                       (ticked w) in
  stop t b w =
    if b then
      match send t w1 with
      | (Return _, w2) => (Return t, w2)
      | (Raise e, w2) => (Raise e, w2)
      end
    else (Return t, w1).
Proof.
  intros H Hst w1. unfold stop, bind.
  rewrite (get_timer_eq t o w H), Hst, time_now_eq.
  assert (H' : timers (ticked w) !! t = Some o) by exact H.
  rewrite (update_timer_eq t o _ _ H'). fold w1.
  destruct b; [|reflexivity].
  destruct (send t w1) as [[u|e] w2]; reflexivity.
Qed.

(** After [send] has got past its two checks, the flag is set, whatever
    [timing] then does. *)
Lemma send_marks_sent (t : ref) (o : Timer.obj) (x : spec_float) (w : World) :
  timers w !! t = Some o -> Timer.ms o = Some x -> Timer._sent o = false ->
  timers (snd (send t w)) !! t = Some (set_sent true o).
Proof.
  intros H Hms Hsent. rewrite (send_eq t o x w H Hms Hsent).
  rewrite timing_timers. now apply (with_timer_lookup t o).
Qed.

(* ------------------------------------------------------------------ *)
(** ** The timer: the protocol of [start], [stop] and [send] *)
(* ------------------------------------------------------------------ *)

(** C3.  For a timer [t]:
    - before [start()], that is while [_start_time] is [None], [stop()]
      raises [RuntimeError('Timer has not started.')] at once, and while
      nothing is recorded [send()] raises
      [RuntimeError('No data recorded.')]; neither changes anything, and a
      new timer is in that state;
    - the first [send()] on a stopped timer calls the owning client's
      [timing] with the stat, the elapsed milliseconds and the rate;
    - a second [send()], after that one or after a [stop()] that sent,
      raises [RuntimeError('Already sent data.')]. *)
Theorem timer_protocol :
  forall (t : ref) (o : Timer.obj) (w : World),
    timers w !! t = Some o ->
    (Timer._start_time o = None ->
       forall b, stop t b w
                 = (Raise (Exn RuntimeError "Timer has not started."), w)) /\
    (Timer.ms o = None ->
       send t w = (Raise (Exn RuntimeError "No data recorded."), w)) /\
    (forall x, Timer.ms o = Some x -> Timer._sent o = false ->
       send t w
         = timing (Timer.client o) (Timer.stat o) (PyFloat x) (Timer.rate o)
                  (with_timer t (set_sent true o) w) /\
       send t (snd (send t w))
         = (Raise (Exn RuntimeError "Already sent data."), snd (send t w))) /\
    (forall st, Timer._start_time o = Some st ->
       send t (snd (stop t true w))
         = (Raise (Exn RuntimeError "Already sent data."), snd (stop t true w))) /\
    (forall client stat rate w0,
       exists w1,
         timer client stat rate w0 = (Return (length (timers w0)), w1) /\
         timers w1 !! length (timers w0)
           = Some (Timer.Obj client stat rate None false None)).
Proof.
  intros t o w H. split; [|split; [|split; [|split]]].
  - intros Hst b. now apply (stop_not_started t o).
  - intros Hms. now apply (send_no_data t o).
  - intros x Hms Hsent. split; [now apply send_eq|].
    apply (send_already_sent t (set_sent true o) x).
    + now apply (send_marks_sent t o x).
    + exact Hms.
    + reflexivity.
  - intros st Hst.
    set (x := to_ms (float_sub (next_time w) st)).
    set (o1 := set_ms (Some x) o).
    set (w1 := with_timer t o1 (ticked w)).
    assert (H1 : timers w1 !! t = Some o1) by now apply (with_timer_lookup t o).
    pose proof (stop_eq t o st true w H Hst) as Hstop. cbv zeta in Hstop.
    fold x o1 w1 in Hstop. cbn iota in Hstop.
    destruct (Timer._sent o) eqn:Hsent.
    + pose proof (send_already_sent t o1 x w1 H1 eq_refl Hsent) as Hs.
      rewrite Hs in Hstop. rewrite Hstop. exact Hs.
    + pose proof (send_marks_sent t o1 x w1 H1 eq_refl Hsent) as Hm.
      assert (Hw : snd (stop t true w) = snd (send t w1)).
      { rewrite Hstop. destruct (send t w1) as [[u|e] w2]; reflexivity. }
      rewrite Hw.
      now apply (send_already_sent t (set_sent true o1) x).
  - intros client stat rate w0.
    destruct (timer_new client stat rate w0) as (w1 & H1 & H2 & _). eauto.
Qed.

(** A new timer, as in [test_timer_object_stop_without_start]. *)
Lemma timer_protocol_witness :
  stop 0%nat true (world_timer "foo" (PyInt 1))
  = (Raise (Exn RuntimeError "Timer has not started."),
     world_timer "foo" (PyInt 1)).
Proof.
  exact (proj1 (timer_protocol 0%nat
                  (Timer.Obj (test_client None) "foo" (PyInt 1) None false None)
                  (world_timer "foo" (PyInt 1)) eq_refl) eq_refl true).
Defined.

(* ------------------------------------------------------------------ *)
(** ** The timer as a context manager *)
(* ------------------------------------------------------------------ *)

(** C2, as stated, fails when the scoped code stops and sends the timer
    itself before it raises: the body raises [ValueError], [stop()] in
    [__exit__] then raises [RuntimeError('Already sent data.')], and the
    caller gets that error instead. *)
Lemma scope_exception_replaced :
  fst (stop_then_fail 0%nat (snd (__enter__ 0%nat (world_timer "foo" (PyInt 1)))))
    = Raise (Exn ValueError "boom") /\
  fst (scoped 0%nat stop_then_fail (world_timer "foo" (PyInt 1)))
    = Raise (Exn RuntimeError "Already sent data.").
Proof. split; vm_compute; reflexivity. Qed.

(** C2, amended.  Entering the scope is [start()]: it returns the handle,
    and the elapsed field is unset when the scoped code begins.  Leaving
    the scope, on
    normal exit and on an exception alike, is [stop()] with sending.  When
    the scoped code has left the timer started and unsent, the exit reads
    the clock once, stores the elapsed milliseconds in the field, marks the
    timer sent and calls the client's [timing] exactly once; when that call
    returns normally, the value or the exception of the scoped code comes
    out unchanged, and when it raises, its exception comes out instead.
    When the scoped code has already sent the timer's data, the exit
    raises [RuntimeError('Already sent data.')], whatever the scoped code
    did. *)
Theorem timer_scope :
  forall (A : Type) (t : ref) (o : Timer.obj) (body : ref -> M A) (w : World),
    timers w !! t = Some o ->
    let o1 := set_start_time (Some (next_time w)) (set_sent false (set_ms None o)) in
    let w1 := with_timer t o1 (ticked w) in
    __enter__ t w = (Return t, w1) /\
    timers w1 !! t = Some o1 /\
    Timer.ms o1 = None /\
    forall r w2 o2 st,
      body t w1 = (r, w2) ->
      timers w2 !! t = Some o2 ->
      Timer._start_time o2 = Some st ->
      let x := to_ms (float_sub (next_time w2) st) in
      (Timer._sent o2 = false ->
         let o3 := set_sent true (set_ms (Some x) o2) in
         let emission :=
           timing (Timer.client o2) (Timer.stat o2) (PyFloat x) (Timer.rate o2)
                  (with_timer t o3 (ticked w2)) in
         scoped t body w = after_emission (propagated r) emission /\
         timers (snd (scoped t body w)) !! t = Some o3 /\
         Timer.ms o3 = Some x) /\
      (Timer._sent o2 = true ->
         scoped t body w
           = (Raise (Exn RuntimeError "Already sent data."),
              with_timer t (set_ms (Some x) o2) (ticked w2))).
Proof.
  intros A t o body w H o1 w1.
  pose proof (start_eq t o w H) as Hstart. fold o1 w1 in Hstart.
  assert (H1 : timers w1 !! t = Some o1) by now apply (with_timer_lookup t o).
  split; [exact Hstart|]. split; [exact H1|]. split; [reflexivity|].
  intros r w2 o2 st Hbody H2 Hst x.
  set (o2' := set_ms (Some x) o2).
  set (w2' := with_timer t o2' (ticked w2)).
  assert (H2' : timers w2' !! t = Some o2') by now apply (with_timer_lookup t o2).
  pose proof (stop_eq t o2 st true w2 H2 Hst) as Hstop. cbv zeta in Hstop.
  fold x o2' w2' in Hstop. cbn iota in Hstop.
  assert (Hscoped : scoped t body w =
            match stop t true w2 with
            | (Return _, w3) => (propagated r, w3)
            | (Raise e, w3) => (Raise e, w3)
            end).
  { unfold scoped, with_stmt, bind, __enter__, __exit__. rewrite Hstart, Hbody.
    unfold bind, ret.
    destruct r as [a|e]; destruct (stop t true w2) as [[u|e'] w3]; reflexivity. }
  split.
  - intros Hsent o3 emission.
    pose proof (send_eq t o2' x w2' H2' eq_refl Hsent) as Hsend.
    unfold w2' in Hsend at 2. rewrite with_timer_twice in Hsend.
    change (timing _ _ _ _ _) with emission in Hsend.
    rewrite Hsend in Hstop. rewrite Hstop in Hscoped.
    assert (Hem : timers (snd emission) !! t = Some o3).
    { unfold emission. rewrite timing_timers.
      apply (with_timer_lookup t o2). exact H2. }
    clearbody emission.
    assert (Heq : scoped t body w = after_emission (propagated r) emission).
    { rewrite Hscoped. unfold after_emission.
      destruct emission as [[u|e] w3]; reflexivity. }
    split; [exact Heq|]. split; [|reflexivity].
    rewrite Heq. unfold after_emission.
    destruct emission as [[u|e] w3]; exact Hem.
  - intros Hsent.
    pose proof (send_already_sent t o2' x w2' H2' eq_refl Hsent) as Hsend.
    rewrite Hsend in Hstop. rewrite Hscoped, Hstop. reflexivity.
Qed.

(** The scope of [test_timer_context_exceptions]: the body raises
    [socket.timeout] with the timer started and unsent; the exit makes its
    one call of [timing] with the 1000 milliseconds elapsed, and the
    exception of the body comes out when that call returns. *)
Lemma timer_scope_witness :
  let w := world_timer "foo" (PyInt 1) in
  let started := Timer.Obj (test_client None) "foo" (PyInt 1) None false
                           (Some (S754_zero false)) in
  let stopped := Timer.Obj (test_client None) "foo" (PyInt 1)
                           (Some (float_lit 1000)) true (Some (S754_zero false)) in
  let body := fun _ : ref => @raise unit (Exn socket_timeout "") in
  __enter__ 0%nat w = (Return 0%nat, with_timer 0%nat started (ticked w)) /\
  scoped 0%nat body w
    = after_emission (Raise (Exn socket_timeout ""))
        (timing (test_client None) "foo" (PyFloat (float_lit 1000)) (PyInt 1)
                (with_timer 0%nat stopped
                            (ticked (with_timer 0%nat started (ticked w))))) /\
  timers (snd (scoped 0%nat body w)) !! 0%nat = Some stopped.
Proof.
  intros w started stopped body.
  destruct (timer_scope unit 0%nat
              (Timer.Obj (test_client None) "foo" (PyInt 1) None false None)
              body w eq_refl) as (Henter & _ & _ & Hexit).
  destruct (proj1 (Hexit (Raise (Exn socket_timeout ""))
                         (with_timer 0%nat started (ticked w)) started
                         (S754_zero false) eq_refl eq_refl eq_refl) eq_refl)
    as (Hscoped & Hafter & _).
  split; [exact Henter|]. split; [exact Hscoped | exact Hafter].
Defined.

Example test_timer_capture :
  let w := snd (scoped 0%nat (fun t => o <- get_timer t ;; ret (Timer.ms o))
                       (world_timer "woo" (PyInt 1))) in
  fst (scoped 0%nat (fun t => o <- get_timer t ;; ret (Timer.ms o))
              (world_timer "woo" (PyInt 1))) = Return (Some None) /\
  option_map Timer.ms (timers w !! 0%nat)
    = Some (Some (float_lit 1000)) /\
  payloads w = ["woo:1000.000000|ms"%string].
Proof. vm_compute. repeat split. Qed.

(* ------------------------------------------------------------------ *)
(** ** The timer as a decorator *)
(* ------------------------------------------------------------------ *)

(** One call of the decorated function: the clock is read, [f] runs on
    the arguments as given, the clock is read again, and [timing] is
    called with the stat and the rate of the timer; an exception of
    [timing] replaces what [f] returned or raised. *)
Lemma _wrapped_eq {Args Ret : Type} (t : ref) (f : Args -> M Ret) (args : Args)
    (w : World) (r : outcome Ret) (w1 : World) (o1 : Timer.obj) :
  f args (ticked w) = (r, w1) ->
  timers w1 !! t = Some o1 ->
  _wrapped t f args w =
    after_emission r
      (timing (Timer.client o1) (Timer.stat o1)
              (PyFloat (to_ms (float_sub (next_time w1) (next_time w))))
              (Timer.rate o1) (ticked w1)).
Proof.
  intros Hf H1. unfold _wrapped, bind at 1. rewrite time_now_eq.
  unfold bind at 1, try_finally. rewrite Hf.
  unfold bind at 1. rewrite time_now_eq.
  assert (H1' : timers (ticked w1) !! t = Some o1) by exact H1.
  unfold bind at 1. rewrite (get_timer_eq t o1 _ H1').
  unfold after_emission.
  destruct (timing _ _ _ _ _) as [[u|e] w3]; [|reflexivity].
  destruct r; reflexivity.
Qed.

(** C4, as stated, fails when the stat name of the timer has a character
    outside ASCII: the function returns [5], the line does not encode,
    [UnicodeEncodeError] escapes from [timing] in the [finally] block and
    the caller gets it instead of the return value. *)
Lemma wrapped_return_value_lost :
  fst (plus_one 4 (ticked (world_timer e_acute (PyInt 1)))) = Return 5 /\
  fst (__call__ 0%nat plus_one 4 (world_timer e_acute (PyInt 1)))
    = Raise (Exn UnicodeEncodeError
               "'ascii' codec can't encode character: ordinal not in range(128)").
Proof. split; vm_compute; reflexivity. Qed.

(** C4, amended.  An invocation of the decorated function calls [f] on
    the arguments as given and then, whether [f] returned or raised, calls
    the client's [timing] once, with the time elapsed up to that point.
    When that call returns normally, the invocation returns what [f]
    returned, or raises what [f] raised, unchanged; when it raises, its
    exception comes out instead. *)
Theorem wrapped_call :
  forall (Args Ret : Type) (t : ref) (f : Args -> M Ret) (args : Args)
         (w : World) (r : outcome Ret) (w1 : World) (o1 : Timer.obj),
    f args (ticked w) = (r, w1) ->
    timers w1 !! t = Some o1 ->
    let elapsed := to_ms (float_sub (next_time w1) (next_time w)) in
    let emission :=
      timing (Timer.client o1) (Timer.stat o1) (PyFloat elapsed) (Timer.rate o1)
             (ticked w1) in
    __call__ t f args w = after_emission r emission /\
    (forall w2, emission = (Return tt, w2) -> __call__ t f args w = (r, w2)) /\
    (forall e w2, emission = (Raise e, w2) -> __call__ t f args w = (Raise e, w2)).
Proof.
  intros Args Ret t f args w r w1 o1 Hf H1 elapsed emission.
  assert (H : __call__ t f args w = after_emission r emission)
    by exact (_wrapped_eq t f args w r w1 o1 Hf H1).
  split; [exact H|]. split.
  - intros w2 He. rewrite H, He. reflexivity.
  - intros e w2 He. rewrite H, He. reflexivity.
Qed.

(** The decorated function of [test_timer_decorator_exceptions]: it
    raises [ValueError], the timing is sent and [ValueError] comes out. *)
Lemma wrapped_call_witness :
  __call__ 0%nat (fun _ : unit => @raise unit (Exn ValueError "")) tt
           (world_timer "foo" (PyInt 1))
  = after_emission (Raise (Exn ValueError ""))
      (timing (test_client None) "foo" (PyFloat (float_lit 1000)) (PyInt 1)
              (ticked (ticked (world_timer "foo" (PyInt 1))))).
Proof.
  exact (proj1 (wrapped_call unit unit 0%nat
                  (fun _ : unit => @raise unit (Exn ValueError "")) tt
                  (world_timer "foo" (PyInt 1)) (Raise (Exn ValueError ""))
                  (ticked (world_timer "foo" (PyInt 1)))
                  (Timer.Obj (test_client None) "foo" (PyInt 1) None false None)
                  eq_refl eq_refl)).
Defined.

Example test_timer_decorator_exceptions :
  let r := __call__ 0%nat (fun _ : unit => @raise unit (Exn ValueError "")) tt
                    (world_timer "foo" (PyInt 1)) in
  fst r = Raise (Exn ValueError "") /\
  payloads (snd r) = ["foo:1000.000000|ms"%string].
Proof. vm_compute. repeat split. Qed.

(* ------------------------------------------------------------------ *)
(** ** The decorator and the fields of its timer *)
(* ------------------------------------------------------------------ *)

Lemma ignores_ret {A} (a : A) : ignores_timers (ret a).
Proof. intros l w. reflexivity. Qed.

Lemma ignores_raise {A} (e : exn) : ignores_timers (@raise A e).
Proof. intros l w. reflexivity. Qed.

Lemma ignores_lift {A} (r : exn + A) : ignores_timers (lift r).
Proof. destruct r; [apply ignores_raise | apply ignores_ret]. Qed.

Lemma ignores_bind {A B} (m : M A) (k : A -> M B) :
  ignores_timers m -> (forall a, ignores_timers (k a)) ->
  ignores_timers (bind m k).
Proof.
  intros Hm Hk l w. unfold bind. rewrite Hm.
  destruct (m w) as [[a|e] w1]; simpl; [apply Hk | reflexivity].
Qed.

Lemma ignores_try_except {A} classes (m : M A) h :
  ignores_timers m -> (forall e, ignores_timers (h e)) ->
  ignores_timers (try_except classes m h).
Proof.
  intros Hm Hh l w. unfold try_except. rewrite Hm.
  destruct (m w) as [[a|e] w1]; simpl; [reflexivity|].
  destruct (caught_by classes e); [apply Hh | reflexivity].
Qed.

Lemma ignores_random_random : ignores_timers random_random.
Proof. intros l w. reflexivity. Qed.

Lemma ignores_sendto sock payload addr : ignores_timers (sendto sock payload addr).
Proof.
  intros l w. unfold sendto. simpl.
  destruct (sendto_fault w (length (sendto_calls w))); reflexivity.
Qed.

Lemma ignores__send self line : ignores_timers (_send self line).
Proof.
  unfold _send. apply ignores_try_except.
  - apply ignores_bind; [apply ignores_lift | intros; apply ignores_sendto].
  - intros; apply ignores_ret.
Qed.

Lemma ignores__send_stat self stat value rate :
  ignores_timers (_send_stat self stat value rate).
Proof.
  unfold _send_stat. apply ignores_bind.
  - unfold _prepare. apply ignores_bind.
    + destruct (num_lt rate (PyInt 1)); [|apply ignores_ret].
      apply ignores_bind; [apply ignores_random_random|].
      intros r. destruct (num_gt r rate); apply ignores_ret.
    + intros [line|]; apply ignores_ret.
  - intros [line|]; unfold _after; [|apply ignores_ret].
    destruct (truthy (Some line)); [apply ignores__send | apply ignores_ret].
Qed.

(** [timing] neither reads nor writes the store of timers. *)
Lemma ignores_timing self stat delta rate :
  ignores_timers (timing self stat delta rate).
Proof.
  unfold timing. apply ignores_bind; [apply ignores_lift|].
  intros. apply ignores__send_stat.
Qed.

Lemma ignores_frame {A} (m : M A) : ignores_timers m -> frame timers m.
Proof.
  intros H w. specialize (H (timers w) w).
  assert (Hw : set_timers (timers w) w = w) by now destruct w.
  rewrite Hw in H. rewrite H. reflexivity.
Qed.

(** The wrapper writes nothing to the store: after a call it is as [f]
    left it. *)
Lemma _wrapped_timers {Args Ret : Type} (t : ref) (f : Args -> M Ret)
    (args : Args) (w : World) :
  timers (snd (_wrapped t f args w)) = timers (snd (f args (ticked w))).
Proof.
  unfold _wrapped, bind at 1. rewrite time_now_eq.
  unfold bind at 1, try_finally.
  destruct (f args (ticked w)) as [r w1]. simpl.
  set (final := bind time_now _).
  assert (Hfinal : frame timers final).
  { unfold final. apply frame_bind; [intros w0; reflexivity|]. intros now.
    apply frame_bind.
    - intros w0. unfold get_timer. destruct (timers w0 !! t); reflexivity.
    - intros o. apply timing_timers. }
  specialize (Hfinal w1).
  destruct (final w1) as [[u|e] w2]; simpl in *; [|exact Hfinal].
  destruct r; exact Hfinal.
Qed.

Lemma invocations_timers {Args Ret : Type} (t : ref) (f : Args -> M Ret) :
  (forall args, frame timers (f args)) ->
  forall argss, frame timers (invocations (__call__ t f) argss).
Proof.
  intros Hf argss. induction argss as [|args rest IH]; intros w.
  - reflexivity.
  - simpl. unfold bind, attempt. rewrite IH. unfold __call__.
    rewrite _wrapped_timers. exact (Hf args (ticked w)).
Qed.

(** C10.  A call of the decorated function leaves the store of timers as
    the function itself left it: the wrapper writes no field and makes no
    [Timer].  For a function that does not use timers: after any number of
    calls the store is what it was, so the elapsed field of the timer is
    still unset and a direct [send()] still raises
    [RuntimeError('No data recorded.')]; the call ends the same way
    whatever [ms], [_sent] and [_start_time] hold, so it reads none of
    them; and each call takes its own two readings of the clock and hands
    the difference to the client's [timing]. *)
Theorem decorator_leaves_timer_alone :
  forall (Args Ret : Type) (t : ref) (f : Args -> M Ret),
    (forall args w,
       timers (snd (__call__ t f args w)) = timers (snd (f args (ticked w)))) /\
    ((forall args, ignores_timers (f args)) ->
     forall (o : Timer.obj) (w : World),
       timers w !! t = Some o ->
       (forall argss,
          timers (snd (invocations (__call__ t f) argss w)) = timers w) /\
       (forall argss,
          Timer.ms o = None ->
          let w' := snd (invocations (__call__ t f) argss w) in
          option_map Timer.ms (timers w' !! t) = Some None /\
          send t w' = (Raise (Exn RuntimeError "No data recorded."), w')) /\
       (forall args ms sent start_time,
          let o' := Timer.Obj (Timer.client o) (Timer.stat o) (Timer.rate o)
                              ms sent start_time in
          __call__ t f args (with_timer t o' w)
            = (fst (__call__ t f args w),
               set_timers (timers (with_timer t o' w))
                          (snd (__call__ t f args w)))) /\
       (forall args r w1,
          f args (ticked w) = (r, w1) ->
          __call__ t f args w
            = after_emission r
                (timing (Timer.client o) (Timer.stat o)
                        (PyFloat (to_ms (float_sub (next_time w1) (next_time w))))
                        (Timer.rate o) (ticked w1)))).
Proof.
  intros Args Ret t f. split; [intros; apply _wrapped_timers|].
  intros Hf o w H.
  assert (Hframe : forall args, frame timers (f args))
    by (intros; apply ignores_frame, Hf).
  assert (Hcall : forall args r w1,
            f args (ticked w) = (r, w1) ->
            __call__ t f args w
              = after_emission r
                  (timing (Timer.client o) (Timer.stat o)
                          (PyFloat (to_ms (float_sub (next_time w1) (next_time w))))
                          (Timer.rate o) (ticked w1))).
  { intros args r w1 Hr. apply _wrapped_eq; [exact Hr|].
    pose proof (Hframe args (ticked w)) as Ht. rewrite Hr in Ht. simpl in Ht.
    now rewrite Ht. }
  split; [|split; [|split]].
  - intros argss. now apply invocations_timers.
  - intros argss Hms w'.
    assert (H' : timers w' !! t = Some o).
    { unfold w'. now rewrite invocations_timers. }
    split; [now rewrite H', <- Hms | now apply (send_no_data t o)].
  - intros args ms sent start_time o'.
    set (l' := timers (with_timer t o' w)).
    destruct (f args (ticked w)) as [r w1] eqn:Hr.
    rewrite (Hcall args r w1 Hr).
    assert (Hr' : f args (ticked (with_timer t o' w)) = (r, set_timers l' w1)).
    { change (ticked (with_timer t o' w)) with (set_timers l' (ticked w)).
      now rewrite Hf, Hr. }
    assert (H1' : timers (set_timers l' w1) !! t = Some o').
    { simpl. unfold l'. now apply (with_timer_lookup t o). }
    unfold __call__. rewrite (_wrapped_eq t f args _ r _ o' Hr' H1').
    change (ticked (set_timers l' w1)) with (set_timers l' (ticked w1)).
    change (next_time (set_timers l' w1)) with (next_time w1).
    change (next_time (with_timer t o' w)) with (next_time w).
    cbn [Timer.client Timer.stat Timer.rate o'].
    rewrite ignores_timing. unfold after_emission.
    destruct (timing _ _ _ _ _) as [[u|e] w3]; reflexivity.
  - exact Hcall.
Qed.

(** The decorated function of [test_timer_decorator], called three times:
    the timer has still recorded nothing. *)
Lemma decorator_leaves_timer_alone_witness :
  timers (snd (invocations (__call__ 0%nat plus_one) [4; 5; 6]
                           (world_timer "foo" (PyInt 1))))
  = timers (world_timer "foo" (PyInt 1)).
Proof.
  refine (proj1 (proj2 (decorator_leaves_timer_alone Z Z 0%nat plus_one) _
                       (Timer.Obj (test_client None) "foo" (PyInt 1) None false None)
                       (world_timer "foo" (PyInt 1)) eq_refl) [4; 5; 6]).
  intros args. apply ignores_ret.
Defined.

Example test_timer_decorator :
  let w := snd (invocations (__call__ 0%nat plus_one) [4; 5; 6]
                            (world_timer "foo" (PyInt 1))) in
  payloads w = ["foo:1000.000000|ms"; "foo:1000.000000|ms";
                "foo:1000.000000|ms"]%string /\
  timers w = [Timer.Obj (test_client None) "foo" (PyInt 1) None false None] /\
  fst (send 0%nat w) = Raise (Exn RuntimeError "No data recorded.").
Proof. vm_compute. repeat split. Qed.

(* ------------------------------------------------------------------ *)
(** ** What the metric operations leave alone *)
(* ------------------------------------------------------------------ *)

Lemma run_call_frame {X} (proj : World -> X) (self : StatsClient) (c : metric_call) :
  frame proj random_random ->
  (forall sock payload addr, frame proj (sendto sock payload addr)) ->
  frame proj (run_call self c).
Proof.
  intros H1 H2.
  destruct c as [stat count rate|stat count rate|stat value rate|stat delta rate];
    simpl.
  - now apply _send_stat_frame.
  - unfold decr. apply frame_bind; [apply frame_lift|].
    intros. now apply _send_stat_frame.
  - now apply _send_stat_frame.
  - now apply timing_frame.
Qed.

Lemma run_calls_frame {X} (proj : World -> X) (self : StatsClient)
    (cs : list metric_call) :
  frame proj random_random ->
  (forall sock payload addr, frame proj (sendto sock payload addr)) ->
  frame proj (run_calls self cs).
Proof.
  intros H1 H2. induction cs as [|c cs IH]; simpl.
  - apply frame_ret.
  - apply frame_bind; [|intros; exact IH].
    apply frame_attempt. now apply run_call_frame.
Qed.

Lemma sendto_frame_other {X} (proj : World -> X) :
  (forall l w, proj (set_sendto_calls l w) = proj w) ->
  (forall l w, proj (set_datagrams l w) = proj w) ->
  forall sock payload addr, frame proj (sendto sock payload addr).
Proof.
  intros H1 H2 sock payload addr w. unfold sendto.
  destruct (sendto_fault w (length (sendto_calls w))); simpl;
    now rewrite ?H2, ?H1.
Qed.

(** X1.  Over any sequence of metric operations on a client, whatever
    they send and however they end: the clock is never read, no [Timer]
    is created or changed, [getaddrinfo] is never called again and no
    socket is opened. *)
Theorem metric_calls_leave_the_rest :
  forall (self : StatsClient) (cs : list metric_call) (w : World),
    let w' := snd (run_calls self cs w) in
    clock_calls w' = clock_calls w /\
    timers w' = timers w /\
    getaddrinfo_calls w' = getaddrinfo_calls w /\
    sockets w' = sockets w.
Proof.
  intros self cs w w'. unfold w'.
  split; [|split; [|split]];
    apply (run_calls_frame _ self cs);
    try (intros w0; reflexivity);
    apply sendto_frame_other; reflexivity.
Qed.

(* ------------------------------------------------------------------ *)
(** ** Where the datagrams go *)
(* ------------------------------------------------------------------ *)

(** [_send] calls [sendto] at most once, with the encoded line and the
    client's address, and a datagram leaves only with such a call. *)
Lemma _send_wire (self : StatsClient) (line : string) (w : World) :
  let w1 := snd (_send self line w) in
  (sendto_calls w1 = sendto_calls w /\ datagrams w1 = datagrams w) \/
  (sendto_calls w1
     = sendto_calls w ++ [(_sock self, list_byte_of_string line, _addr self)] /\
   (datagrams w1 = datagrams w \/
    datagrams w1 = datagrams w ++ [(list_byte_of_string line, _addr self)])).
Proof.
  unfold _send, try_except, bind, lift, encode_ascii.
  destruct (is_ascii line); [|now left].
  unfold ret, sendto. right.
  destruct (sendto_fault w (length (sendto_calls w))) as [e|].
  - case_match; simpl; auto.
  - simpl. auto.
Qed.

Lemma _prepare_datagrams self stat value rate :
  frame datagrams (_prepare self stat value rate).
Proof. apply _prepare_frame. intros w. reflexivity. Qed.

Lemma run_call_wire (self : StatsClient) (c : metric_call) (w : World) :
  let w1 := snd (run_call self c w) in
  (sendto_calls w1 = sendto_calls w /\ datagrams w1 = datagrams w) \/
  exists payload,
    sendto_calls w1 = sendto_calls w ++ [(_sock self, payload, _addr self)] /\
    (datagrams w1 = datagrams w \/
     datagrams w1 = datagrams w ++ [(payload, _addr self)]).
Proof.
  destruct (value_portion c) as [e|v] eqn:Hv; cbv zeta.
  - left. now rewrite (run_call_raises self c e w Hv).
  - rewrite (run_call_send_stat self c v Hv). unfold _send_stat, bind.
    pose proof (_prepare_datagrams self (call_stat c) v (call_rate c) w) as Hf.
    pose proof (_prepare_sendto_calls self (call_stat c) v (call_rate c) w) as Hg.
    destruct (_prepare self (call_stat c) v (call_rate c) w) as [[[line|]|e] w2];
      simpl in Hf, Hg; try (left; split; assumption).
    unfold _after. destruct (truthy (Some line)); [|left; split; assumption].
    destruct (_send_wire self line w2) as [[H1 H2]|[H1 H2]];
      rewrite H1, Hg; [left|right].
    + split; [reflexivity|]. now rewrite H2.
    + exists (list_byte_of_string line). split; [reflexivity|].
      destruct H2 as [H2|H2]; rewrite H2, Hf; auto.
Qed.

(** X2.  Over any sequence of [n] metric operations on a client,
    [sendto] is called at most [n] times, each time on the client's socket
    and with the client's resolved address; and at most as many datagrams
    leave, all of them to that address. *)
Theorem datagrams_go_to_the_resolved_address :
  forall (self : StatsClient) (cs : list metric_call) (w : World),
    let w' := snd (run_calls self cs w) in
    exists new_calls new_datagrams,
      sendto_calls w' = sendto_calls w ++ new_calls /\
      datagrams w' = datagrams w ++ new_datagrams /\
      (length new_datagrams <= length new_calls <= length cs)%nat /\
      Forall (fun call => fst (fst call) = _sock self /\ snd call = _addr self)
             new_calls /\
      Forall (fun d => snd d = _addr self) new_datagrams.
Proof.
  intros self cs. induction cs as [|c cs IH]; intros w w'.
  - exists [], []. unfold w'. simpl. rewrite !app_nil_r. repeat split; auto.
  - unfold w'. simpl. unfold bind, attempt. simpl.
    set (w1 := snd (run_call self c w)).
    destruct (IH w1) as (nc & nd & Hc & Hd & [Hl1 Hl2] & Fc & Fd).
    destruct (run_call_wire self c w) as [[Hc1 Hd1]|(payload & Hc1 & [Hd1|Hd1])];
      fold w1 in Hc1, Hd1.
    + exists nc, nd. rewrite Hc, Hd, Hc1, Hd1. simpl. repeat split; auto; lia.
    + exists ((_sock self, payload, _addr self) :: nc), nd.
      rewrite Hc, Hd, Hc1, Hd1, <- app_assoc. simpl.
      repeat split; auto; try lia.
    + exists ((_sock self, payload, _addr self) :: nc), ((payload, _addr self) :: nd).
      rewrite Hc, Hd, Hc1, Hd1, <- !app_assoc. simpl.
      repeat split; auto; try lia.
Qed.

(* ------------------------------------------------------------------ *)
(** ** Rates outside (0, 1) *)
(* ------------------------------------------------------------------ *)

(** X3.  A rate that is not below 1 is a full rate: with a rate above 1,
    and with a NaN, as with 1, [random.random()] is not called and the
    line goes to [_send] without a rate annotation. *)
Theorem rate_not_below_one_is_full :
  forall (self : StatsClient) (c : metric_call) (v : string) (w : World),
    value_portion c = inr v ->
    num_lt (call_rate c) (PyInt 1) = false ->
    run_call self c w
      = _send self (wire_name self (call_stat c) +:+ ":" +:+ v) w /\
    random_calls (snd (run_call self c w)) = random_calls w.
Proof.
  intros self c v w Hv Hr.
  assert (H : run_call self c w
              = _send self (wire_name self (call_stat c) +:+ ":" +:+ v) w).
  { rewrite (run_call_send_stat self c v Hv).
    apply (_send_stat_line _ _ _ _ _ _ _
             (_prepare_full_rate self (call_stat c) v (call_rate c) w Hr)),
          line_truthy. }
  split; [exact H|]. rewrite H.
  apply (_send_frame random_calls), sendto_random_calls.
Qed.

(** [incr('foo', 1, rate=nan)] and [incr('foo', 1, rate=2)]. *)
Lemma rate_not_below_one_is_full_witness :
  payloads (snd (run_call (test_client None)
                          (CallIncr "foo" (VNum (PyInt 1)) nan_rate)
                          (world0 (PyInt 2))))
    = ["foo:1|c"%string] /\
  payloads (snd (run_call (test_client None)
                          (CallIncr "foo" (VNum (PyInt 1)) (PyInt 2))
                          (world0 (PyInt 2))))
    = ["foo:1|c"%string].
Proof.
  split.
  - rewrite (proj1 (rate_not_below_one_is_full (test_client None)
                      (CallIncr "foo" (VNum (PyInt 1)) nan_rate) "1|c"
                      (world0 (PyInt 2)) eq_refl eq_refl)).
    vm_compute. reflexivity.
  - rewrite (proj1 (rate_not_below_one_is_full (test_client None)
                      (CallIncr "foo" (VNum (PyInt 1)) (PyInt 2)) "1|c"
                      (world0 (PyInt 2)) eq_refl eq_refl)).
    vm_compute. reflexivity.
Defined.




(* ------------------------------------------------------------------ *)
(** ** Construction that fails *)
(* ------------------------------------------------------------------ *)

(** X5.  When the resolution fails, construction fails with it: an
    error of [getaddrinfo] comes out of [__init__] as it is, and an empty
    answer is an [IndexError]; in both cases the one call of [getaddrinfo]
    is on record and no socket has been opened. *)
Theorem init_fails_with_the_resolution :
  forall (host : string) (port : Z) (prefix : option string) (size : Z)
         (w : World),
    let w' := with_getaddrinfo_call (host, port, AF_INET, SOCK_DGRAM) w in
    (forall e, resolver w host port AF_INET SOCK_DGRAM = inl e ->
               __init__ host port prefix size w = (Raise e, w')) /\
    (resolver w host port AF_INET SOCK_DGRAM = inr [] ->
     __init__ host port prefix size w
       = (Raise (Exn IndexError "list index out of range"), w')) /\
    sockets w' = sockets w /\
    (forall r, fst (__init__ host port prefix size w) = Return r ->
               exists info rest,
                 resolver w host port AF_INET SOCK_DGRAM = inr (info :: rest)).
Proof.
  intros host port prefix size w w'. unfold __init__, bind, getaddrinfo.
  fold (with_getaddrinfo_call (host, port, AF_INET, SOCK_DGRAM) w). fold w'.
  destruct (resolver w host port AF_INET SOCK_DGRAM) as [e|[|info rest]].
  - repeat split; try discriminate. now intros e' [= <-].
  - repeat split; discriminate.
  - repeat split; try discriminate. eauto.
Qed.

(** A host that does not resolve. *)
Lemma init_fails_with_the_resolution_witness :
  __init__ "nowhere.invalid" 8125 None 512 (world0 (PyInt (-1)))
  = (Raise (Exn socket_gaierror "Name or service not known"),
     with_getaddrinfo_call ("nowhere.invalid"%string, 8125, AF_INET, SOCK_DGRAM)
                           (world0 (PyInt (-1)))).
Proof.
  exact (proj1 (init_fails_with_the_resolution "nowhere.invalid" 8125 None 512
                  (world0 (PyInt (-1))))
               (Exn socket_gaierror "Name or service not known") eq_refl).
Defined.

(* ------------------------------------------------------------------ *)
(** ** [maxudpsize] *)
(* ------------------------------------------------------------------ *)

(** X6.  [maxudpsize] is stored and never read: two clients that differ
    in it alone behave alike in every metric operation, and a line of any
    length that encodes goes to [sendto] whole, in one call. *)
Theorem maxudpsize_is_never_read :
  forall (addr : sockaddr) (sock : socket) (prefix : option string)
         (size size' : Z) (c : metric_call) (line : string) (w : World),
    run_call (Client addr sock prefix size) c w
      = run_call (Client addr sock prefix size') c w /\
    (is_ascii line = true ->
     sendto_calls (snd (_send (Client addr sock prefix size) line w))
       = sendto_calls w ++ [(sock, list_byte_of_string line, addr)] /\
     length (list_byte_of_string line) = String.length line).
Proof.
  intros addr sock prefix size size' c line w. split.
  - destruct c; reflexivity.
  - intros H. rewrite _send_sendto_calls, H. split; [reflexivity|].
    clear. induction line as [|a line IH]; simpl; [reflexivity|].
    unfold list_byte_of_string in IH. now rewrite IH.
Qed.

(** A line of 600 characters with [maxudpsize=512]. *)
Lemma maxudpsize_is_never_read_witness :
  sendto_calls (snd (_send (Client (Addr4 "127.0.0.1" 8125)
                                   (Socket AF_INET SOCK_DGRAM) None 512)
                           (zeros 600) (world0 (PyInt (-1)))))
    = sendto_calls (world0 (PyInt (-1))) ++
      [(Socket AF_INET SOCK_DGRAM, list_byte_of_string (zeros 600),
        Addr4 "127.0.0.1" 8125)] /\
  length (list_byte_of_string (zeros 600)) = String.length (zeros 600).
Proof.
  refine (proj2 (maxudpsize_is_never_read (Addr4 "127.0.0.1" 8125)
                   (Socket AF_INET SOCK_DGRAM) None 512 512
                   (CallIncr "" (VStr "") (PyInt 1)) (zeros 600)
                   (world0 (PyInt (-1)))) _).
  vm_compute. reflexivity.
Defined.

(* ------------------------------------------------------------------ *)
(** ** Errors of [sendto] that are not dropped *)
(* ------------------------------------------------------------------ *)

(** X7.  An exception of [sendto] that is neither a [socket.error] nor a
    [RuntimeError], nor of a subclass of these, comes out of [_send]: the
    call of [sendto] is on record and no datagram has left. *)
Theorem _send_lets_other_errors_out :
  forall (self : StatsClient) (line : string) (w : World) (e : exn),
    is_ascii line = true ->
    sendto_fault w (length (sendto_calls w)) = Some e ->
    caught_by [OSError; RuntimeError] e = false ->
    _send self line w
      = (Raise e,
         with_sendto_call (_sock self, list_byte_of_string line, _addr self) w) /\
    datagrams (snd (_send self line w)) = datagrams w.
Proof.
  intros self line w e Hascii Hfault Hcaught.
  unfold _send, try_except, bind, lift, encode_ascii. rewrite Hascii.
  unfold ret, sendto. rewrite Hfault, Hcaught. split; reflexivity.
Qed.

(** A [KeyboardInterrupt] during [sendto]. *)
Lemma _send_lets_other_errors_out_witness :
  fst (_send (test_client None) "foo:1|c" world_interrupt)
  = Raise (Exn KeyboardInterrupt "").
Proof.
  rewrite (proj1 (_send_lets_other_errors_out (test_client None) "foo:1|c"
                    world_interrupt (Exn KeyboardInterrupt "")
                    eq_refl eq_refl eq_refl)).
  reflexivity.
Defined.

(* ------------------------------------------------------------------ *)
(** ** Timers are separate objects *)
(* ------------------------------------------------------------------ *)

Lemma touches_only_frame {A} (t : ref) (m : M A) :
  frame timers m -> touches_only t m.
Proof. intros H w. specialize (H w). rewrite H. split; [reflexivity|reflexivity]. Qed.

Lemma touches_only_bind {A B} (t : ref) (m : M A) (k : A -> M B) :
  touches_only t m -> (forall a, touches_only t (k a)) ->
  touches_only t (bind m k).
Proof.
  intros Hm Hk w. unfold bind. destruct (Hm w) as [Hl Ho].
  destruct (m w) as [[a|e] w1]; simpl in *; [|auto].
  destruct (Hk a w1) as [Hl' Ho']. split; [congruence|].
  intros t' Ht. rewrite Ho', Ho; auto.
Qed.

Lemma touches_only_update (t : ref) (f : Timer.obj -> Timer.obj) :
  touches_only t (update_timer t f).
Proof.
  intros w. unfold update_timer, bind, get_timer, put_timer.
  destruct (timers w !! t); simpl; [|auto]. split.
  - apply length_insert.
  - intros t' Ht. now apply list_lookup_insert_ne.
Qed.

Lemma touches_only_get (t : ref) : touches_only t (get_timer t).
Proof.
  apply touches_only_frame. intros w. unfold get_timer.
  destruct (timers w !! t); reflexivity.
Qed.

Lemma touches_only_send (t : ref) : touches_only t (send t).
Proof.
  unfold send. apply touches_only_bind; [apply touches_only_get|]. intros o.
  destruct (Timer.ms o); [|apply touches_only_frame, frame_raise].
  destruct (Timer._sent o); [apply touches_only_frame, frame_raise|].
  apply touches_only_bind; [apply touches_only_update|]. intros _.
  apply touches_only_frame, timing_timers.
Qed.

Lemma touches_only_time_now (t : ref) : touches_only t time_now.
Proof. apply touches_only_frame. intros w. reflexivity. Qed.

Lemma touches_only_stop (t : ref) (b : bool) : touches_only t (stop t b).
Proof.
  unfold stop. apply touches_only_bind; [apply touches_only_get|]. intros o.
  destruct (Timer._start_time o); [|apply touches_only_frame, frame_raise].
  apply touches_only_bind; [apply touches_only_time_now|]. intros now.
  apply touches_only_bind; [apply touches_only_update|]. intros _.
  apply touches_only_bind.
  - destruct b; [apply touches_only_send | apply touches_only_frame, frame_ret].
  - intros _. apply touches_only_frame, frame_ret.
Qed.

Lemma touches_only_start (t : ref) : touches_only t (start t).
Proof.
  unfold start.
  apply touches_only_bind; [apply touches_only_update|]. intros _.
  apply touches_only_bind; [apply touches_only_update|]. intros _.
  apply touches_only_bind; [apply touches_only_time_now|]. intros now.
  apply touches_only_bind; [apply touches_only_update|]. intros _.
  apply touches_only_frame, frame_ret.
Qed.

(** X8.  The methods of a timer work on that timer alone: [start],
    [stop] and [send], however they end, leave every other [Timer] as it
    was and create none.  A new timer from [timer()] gets a reference that
    was not in use, and the timers there were stay as they were. *)
Theorem timers_are_separate :
  forall (t t' : ref) (b : bool) (w : World),
    t' <> t ->
    (timers (snd (start t w)) !! t' = timers w !! t' /\
     timers (snd (stop t b w)) !! t' = timers w !! t' /\
     timers (snd (send t w)) !! t' = timers w !! t') /\
    (length (timers (snd (start t w))) = length (timers w) /\
     length (timers (snd (stop t b w))) = length (timers w) /\
     length (timers (snd (send t w))) = length (timers w)) /\
    (forall client stat rate,
       let r := timer client stat rate w in
       fst r = Return (length (timers w)) /\
       timers w !! length (timers w) = None /\
       (forall o, timers w !! t' = Some o -> timers (snd r) !! t' = Some o)).
Proof.
  intros t t' b w Ht.
  destruct (touches_only_start t w) as [L1 O1].
  destruct (touches_only_stop t b w) as [L2 O2].
  destruct (touches_only_send t w) as [L3 O3].
  split; [auto|]. split; [auto|].
  intros client stat rate r. split; [reflexivity|]. split.
  - apply lookup_ge_None. lia.
  - intros o Ho. unfold r. simpl. now apply lookup_app_l_Some.
Qed.

(** Two timers of the tests' client: stopping the first leaves the
    second as it was. *)
Lemma timers_are_separate_witness :
  let w := snd (timer (test_client None) "bar" (PyInt 1)
                      (snd (start 0%nat (world_timer "foo" (PyInt 1))))) in
  timers (snd (stop 0%nat true w)) !! 1%nat = timers w !! 1%nat.
Proof.
  intros w.
  refine (proj1 (proj2 (proj1 (timers_are_separate 0%nat 1%nat true w _)))).
  discriminate.
Defined.

(* ------------------------------------------------------------------ *)
(** ** Cycles of one timer *)
(* ------------------------------------------------------------------ *)

(** X9.  [start()] arms a timer whatever it went through before: on a
    timer in any state, used and sent or not, [start()] followed by
    [stop()] raises no protocol error; it reads the clock twice, stores
    the difference in milliseconds and calls the client's [timing] once,
    and ends as that call ends. *)
Theorem start_rearms :
  forall (t : ref) (o : Timer.obj) (w : World),
    timers w !! t = Some o ->
    let t0 := next_time w in
    let x := to_ms (float_sub (next_time (ticked w)) t0) in
    let o' := Timer.Obj (Timer.client o) (Timer.stat o) (Timer.rate o)
                        (Some x) true (Some t0) in
    (start t ;; stop t true) w
    = match timing (Timer.client o) (Timer.stat o) (PyFloat x) (Timer.rate o)
                   (with_timer t o' (ticked (ticked w))) with
      | (Return _, w') => (Return t, w')
      | (Raise e, w') => (Raise e, w')
      end.
Proof.
  intros t o w H t0 x o'. unfold bind at 1.
  rewrite (start_eq t o w H). fold t0.
  set (o1 := set_start_time (Some t0) (set_sent false (set_ms None o))).
  set (w1 := with_timer t o1 (ticked w)).
  assert (H1 : timers w1 !! t = Some o1) by now apply (with_timer_lookup t o).
  rewrite (stop_eq t o1 t0 true w1 H1 eq_refl).
  change (next_time w1) with (next_time (ticked w)). fold x.
  set (o2 := set_ms (Some x) o1).
  assert (H2 : timers (with_timer t o2 (ticked w1)) !! t = Some o2).
  { apply (with_timer_lookup t o1). exact H1. }
  rewrite (send_eq t o2 x _ H2 eq_refl eq_refl).
  unfold w1 at 1. change (ticked (with_timer t o1 (ticked w)))
    with (with_timer t o1 (ticked (ticked w))).
  rewrite !with_timer_twice. reflexivity.
Qed.

(** A timer that has been through a whole cycle. *)
Lemma start_rearms_witness :
  fst ((start 0%nat ;; stop 0%nat true)
         (snd ((start 0%nat ;; stop 0%nat true) (world_timer "foo" (PyInt 1)))))
  = Return 0%nat.
Proof.
  rewrite (start_rearms 0%nat
             (Timer.Obj (test_client None) "foo" (PyInt 1)
                        (Some (float_lit 1000)) true (Some (S754_zero false)))
             (snd ((start 0%nat ;; stop 0%nat true) (world_timer "foo" (PyInt 1))))
             ltac:(vm_compute; reflexivity)).
  vm_compute. reflexivity.
Defined.

(** X10.  [stop(send=False)] can be called again: each call reads the
    clock and overwrites the elapsed time, measured from the same start;
    [_start_time] and [_sent] stay, and nothing is sent. *)
Theorem stop_again_measures_from_the_same_start :
  forall (t : ref) (o : Timer.obj) (st : spec_float) (w : World),
    timers w !! t = Some o ->
    Timer._start_time o = Some st ->
    let x2 := to_ms (float_sub (next_time (ticked w)) st) in
    (stop t false ;; stop t false) w
      = (Return t, with_timer t (set_ms (Some x2) o) (ticked (ticked w))) /\
    sendto_calls (snd ((stop t false ;; stop t false) w)) = sendto_calls w.
Proof.
  intros t o st w H Hst x2.
  assert (Heq : (stop t false ;; stop t false) w
                = (Return t, with_timer t (set_ms (Some x2) o) (ticked (ticked w)))).
  { unfold bind. rewrite (stop_eq t o st false w H Hst). cbv zeta iota.
    set (o1 := set_ms (Some (to_ms (float_sub (next_time w) st))) o).
    assert (H1 : timers (with_timer t o1 (ticked w)) !! t = Some o1)
      by now apply (with_timer_lookup t o).
    rewrite (stop_eq t o1 st false _ H1 Hst). cbv zeta iota.
    change (ticked (with_timer t o1 (ticked w)))
      with (with_timer t o1 (ticked (ticked w))).
    rewrite with_timer_twice. reflexivity. }
  split; [exact Heq|]. rewrite Heq. reflexivity.
Qed.

Lemma stop_again_measures_from_the_same_start_witness :
  option_map Timer.ms
    (timers (snd ((stop 0%nat false ;; stop 0%nat false)
                    (snd (start 0%nat (world_timer "foo" (PyInt 1)))))) !! 0%nat)
  = Some (Some (float_lit 2000)).
Proof.
  rewrite (proj1 (stop_again_measures_from_the_same_start 0%nat
             (Timer.Obj (test_client None) "foo" (PyInt 1) None false
                        (Some (S754_zero false)))
             (S754_zero false)
             (snd (start 0%nat (world_timer "foo" (PyInt 1))))
             ltac:(vm_compute; reflexivity) eq_refl)).
  vm_compute. reflexivity.
Defined.

(** The [with] statement on a timer, in terms of [stop]. *)
Lemma scoped_eq {A} (t : ref) (o : Timer.obj) (body : ref -> M A) (w : World) :
  timers w !! t = Some o ->
  let w1 := with_timer t
              (set_start_time (Some (next_time w)) (set_sent false (set_ms None o)))
              (ticked w) in
  scoped t body w =
    match stop t true (snd (body t w1)) with
    | (Return _, w3) => (propagated (fst (body t w1)), w3)
    | (Raise e, w3) => (Raise e, w3)
    end.
Proof.
  intros H w1. unfold scoped, with_stmt, bind, __enter__, __exit__.
  rewrite (start_eq t o w H). fold w1.
  destruct (body t w1) as [[a|e] w2]; simpl; unfold bind, ret;
    destruct (stop t true w2) as [[u|e'] w3]; reflexivity.
Qed.

(** [stop()] on a started timer leaves it sent, however it ends. *)
Lemma stop_true_leaves_sent (t : ref) (o : Timer.obj) (st : spec_float) (w : World) :
  timers w !! t = Some o -> Timer._start_time o = Some st ->
  exists o', timers (snd (stop t true w)) !! t = Some o' /\
             Timer._sent o' = true /\
             Timer._start_time o' = Some st /\
             (exists x, Timer.ms o' = Some x).
Proof.
  intros H Hst.
  set (x := to_ms (float_sub (next_time w) st)).
  set (o1 := set_ms (Some x) o).
  set (w1 := with_timer t o1 (ticked w)).
  assert (H1 : timers w1 !! t = Some o1) by now apply (with_timer_lookup t o).
  pose proof (stop_eq t o st true w H Hst) as Hstop. cbv zeta in Hstop.
  fold x o1 w1 in Hstop. cbn iota in Hstop.
  destruct (Timer._sent o) eqn:Hsent.
  - rewrite (send_already_sent t o1 x w1 H1 eq_refl Hsent) in Hstop.
    rewrite Hstop. exists o1. simpl. repeat split; eauto.
  - pose proof (send_marks_sent t o1 x w1 H1 eq_refl Hsent) as Hm.
    assert (Hw : snd (stop t true w) = snd (send t w1)).
    { rewrite Hstop. destruct (send t w1) as [[u|e] w2]; reflexivity. }
    rewrite Hw. exists (set_sent true o1). simpl. repeat split; eauto.
Qed.

(** X11.  A timer is not re-entrant as a context manager: a scope on a
    timer inside a scope on the same timer always ends in
    [RuntimeError('Already sent data.')], raised when the outer scope
    exits, whatever the inner body returned or raised (the body itself
    not using timers). *)
Theorem nested_scopes_raise :
  forall (A : Type) (t : ref) (o : Timer.obj) (body : ref -> M A) (w : World),
    timers w !! t = Some o ->
    (forall t0, frame timers (body t0)) ->
    fst (scoped t (fun t1 => scoped t1 body) w)
      = Raise (Exn RuntimeError "Already sent data.").
Proof.
  intros A t o body w H Hbody.
  rewrite (scoped_eq t o _ w H). cbv zeta.
  set (o1 := set_start_time (Some (next_time w)) (set_sent false (set_ms None o))).
  set (w1 := with_timer t o1 (ticked w)).
  assert (H1 : timers w1 !! t = Some o1) by now apply (with_timer_lookup t o).
  (* the inner scope *)
  rewrite (scoped_eq t o1 body w1 H1). cbv zeta.
  set (o2 := set_start_time (Some (next_time w1)) (set_sent false (set_ms None o1))).
  set (w2 := with_timer t o2 (ticked w1)).
  assert (H2 : timers w2 !! t = Some o2) by now apply (with_timer_lookup t o1).
  assert (H3 : timers (snd (body t w2)) !! t = Some o2).
  { now rewrite (Hbody t w2). }
  destruct (stop_true_leaves_sent t o2 (next_time w1) _ H3 eq_refl)
    as (o3 & H4 & Hsent & Hst & x & Hms).
  set (inner := stop t true (snd (body t w2))) in *.
  assert (H5 : timers (snd (match inner with
                            | (Return _, w3) => (propagated (fst (body t w2)), w3)
                            | (Raise e, w3) => (Raise e, w3)
                            end)) !! t = Some o3).
  { destruct inner as [[u|e] w3]; exact H4. }
  set (inner_end := match inner with
                    | (Return _, w3) => (propagated (fst (body t w2)), w3)
                    | (Raise e, w3) => (Raise e, w3)
                    end) in *.
  (* the outer exit *)
  pose proof (stop_eq t o3 (next_time w1) true (snd inner_end) H5 Hst) as Hstop.
  cbv zeta in Hstop. cbn iota in Hstop.
  set (x' := to_ms (float_sub (next_time (snd inner_end)) (next_time w1))) in *.
  assert (H6 : timers (with_timer t (set_ms (Some x') o3) (ticked (snd inner_end))) !! t
               = Some (set_ms (Some x') o3)).
  { apply (with_timer_lookup t o3). exact H5. }
  rewrite (send_already_sent t _ x' _ H6 eq_refl Hsent) in Hstop.
  rewrite Hstop. reflexivity.
Qed.

(** [with t: with t: pass] on a new timer. *)
Lemma nested_scopes_raise_witness :
  fst (scoped 0%nat (fun t1 => scoped t1 (fun _ => ret tt))
              (world_timer "foo" (PyInt 1)))
  = Raise (Exn RuntimeError "Already sent data.").
Proof.
  apply (nested_scopes_raise unit 0%nat
           (Timer.Obj (test_client None) "foo" (PyInt 1) None false None)
           (fun _ => ret tt) (world_timer "foo" (PyInt 1)) eq_refl).
  intros t0 w0. reflexivity.
Defined.

(* ------------------------------------------------------------------ *)
(** ** Names in ASCII: the operations that cannot fail *)
(* ------------------------------------------------------------------ *)

Lemma is_ascii_app (s1 s2 : string) :
  is_ascii (s1 +:+ s2) = is_ascii s1 && is_ascii s2.
Proof.
  unfold is_ascii. induction s1 as [|a s1 IH]; simpl; [reflexivity|].
  now rewrite IH, andb_assoc.
Qed.

Lemma is_ascii_cons (a : ascii) (s : string) :
  is_ascii (String a s) = is_ascii_char a && is_ascii s.
Proof. reflexivity. Qed.

Lemma is_ascii_substring (n m : nat) (s : string) :
  is_ascii s = true -> is_ascii (substring n m s) = true.
Proof.
  revert n m. induction s as [|a s IH]; intros n m H.
  - destruct n, m; reflexivity.
  - rewrite is_ascii_cons in H. apply andb_true_iff in H as [Ha Hs].
    destruct n as [|n]; [destruct m as [|m]|]; simpl.
    + reflexivity.
    + rewrite is_ascii_cons, Ha. now apply IH.
    + now apply IH.
Qed.

Lemma is_digit_ascii (a : ascii) : is_digit a = true -> is_ascii_char a = true.
Proof.
  unfold is_digit, is_ascii_char. intros H.
  apply andb_true_iff in H as [_ H]. apply N.leb_le in H. apply N.ltb_lt. lia.
Qed.

Lemma all_digits_ascii (s : string) : all_digits s = true -> is_ascii s = true.
Proof.
  induction s as [|a s IH]; [reflexivity|]. simpl. intros H.
  apply andb_true_iff in H as [Ha Hs].
  rewrite is_ascii_cons, (is_digit_ascii a Ha). now apply IH.
Qed.

Lemma is_ascii_zeros (n : nat) : is_ascii (zeros n) = true.
Proof. induction n as [|n IH]; [reflexivity|]. simpl. now rewrite is_ascii_cons, IH. Qed.

Lemma is_ascii_str_of_int (n : Z) : is_ascii (str_of_int n) = true.
Proof.
  assert (Hu : forall d, is_ascii (NilZero.string_of_uint d) = true).
  { intros d. apply all_digits_ascii. unfold NilZero.string_of_uint.
    destruct d; try reflexivity; apply (all_digits_uint (_ _)). }
  unfold str_of_int. destruct n as [|p|p]; cbn [Z.to_int NilZero.string_of_int].
  - reflexivity.
  - apply Hu.
  - rewrite is_ascii_cons. now rewrite Hu.
Qed.

Lemma is_ascii_sign_str (s : bool) : is_ascii (sign_str s) = true.
Proof. destruct s; reflexivity. Qed.

Lemma is_ascii_repr_layout (ds : string) (decpt : Z) :
  is_ascii ds = true -> is_ascii (repr_layout ds decpt) = true.
Proof.
  intros H. unfold repr_layout.
  repeat case_match;
    rewrite ?is_ascii_app, ?is_ascii_zeros, ?H, ?is_ascii_str_of_int,
            ?is_ascii_substring by exact H;
    reflexivity.
Qed.

Lemma is_ascii_repr_float (f : spec_float) : is_ascii (repr_float f) = true.
Proof.
  destruct f as [s|s| |s m e]; cbn [repr_float];
    rewrite ?is_ascii_app, ?is_ascii_sign_str; try reflexivity.
  unfold repr_finite.
  destruct (shortest_digits _ _ _ _ _) as [c p].
  destruct (strip_zeros _ _ _) as [c' p'].
  apply is_ascii_repr_layout, is_ascii_str_of_int.
Qed.

Lemma is_ascii_str_of_num (x : pynum) : is_ascii (str_of_num x) = true.
Proof. destruct x; [apply is_ascii_str_of_int | apply is_ascii_repr_float]. Qed.

Lemma is_ascii_fixed6 (n : Z) : is_ascii (fixed6 n) = true.
Proof.
  unfold fixed6. rewrite !is_ascii_app, is_ascii_str_of_int.
  now rewrite (all_digits_ascii _ (all_digits_frac6 _)).
Qed.

Lemma is_ascii_format_f6_float (f : spec_float) :
  is_ascii (format_f6_float f) = true.
Proof.
  destruct f as [s|s| |s m e]; cbn [format_f6_float];
    rewrite ?is_ascii_app, ?is_ascii_sign_str, ?is_ascii_fixed6; reflexivity.
Qed.

(** The value portion of a call on numbers, or on ASCII strings, is
    ASCII. *)
Lemma value_portion_ascii (c : metric_call) (v : string) :
  value_portion c = inr v -> call_text_ascii c = true -> is_ascii v = true.
Proof.
  destruct c as [stat count rate|stat count rate|stat value rate|stat delta rate];
    cbn [value_portion call_text_ascii].
  - intros [= <-] H. rewrite is_ascii_app.
    destruct count as [x|s]; cbn [str_of];
      [now rewrite is_ascii_str_of_num | now rewrite H].
  - destruct count as [x|s]; cbn [val_neg]; [|discriminate].
    intros [= <-] _. rewrite is_ascii_app. cbn [str_of].
    now rewrite is_ascii_str_of_num.
  - intros [= <-] H. rewrite is_ascii_app.
    destruct value as [x|s]; cbn [str_of];
      [now rewrite is_ascii_str_of_num | now rewrite H].
  - destruct delta as [n|f]; cbn [format_f6].
    + destruct (float_of_int n) as [e|f]; [discriminate|].
      intros [= <-] _. now rewrite is_ascii_app, is_ascii_format_f6_float.
    + intros [= <-] _. now rewrite is_ascii_app, is_ascii_format_f6_float.
Qed.

Lemma is_ascii_wire_name (self : StatsClient) (stat : string) :
  prefix_ascii self = true -> is_ascii stat = true ->
  is_ascii (wire_name self stat) = true.
Proof.
  unfold prefix_ascii, wire_name. intros Hp Hs.
  destruct (_prefix self) as [p|]; [|exact Hs].
  destruct (truthy (Some p)); [|exact Hs].
  now rewrite !is_ascii_app, Hp, Hs.
Qed.

(** On a benign network, an ASCII line always gets through [_send]. *)
Lemma _send_returns (self : StatsClient) (line : string) (w : World) :
  is_ascii line = true -> benign w -> fst (_send self line w) = Return tt.
Proof.
  intros Hascii Hb. unfold _send, try_except, bind, lift, encode_ascii.
  rewrite Hascii. unfold ret, sendto.
  destruct (sendto_fault w (length (sendto_calls w))) as [e|] eqn:Hf; [|reflexivity].
  now rewrite (Hb _ e Hf).
Qed.

Lemma _send_stat_returns (self : StatsClient) (stat value : string) (rate : pynum)
    (w : World) :
  prefix_ascii self = true -> is_ascii stat = true -> is_ascii value = true ->
  benign w ->
  fst (_send_stat self stat value rate w) = Return tt.
Proof.
  intros Hp Hs Hv Hb.
  pose proof (is_ascii_wire_name self stat Hp Hs) as Hn.
  destruct (num_lt rate (PyInt 1)) eqn:Hr.
  - destruct (num_gt (next_draw w) rate) eqn:Hd.
    + now rewrite (_send_stat_none _ _ _ _ _ _ (_prepare_dropped _ _ _ _ _ Hr Hd)).
    + rewrite (_send_stat_line _ _ _ _ _ _ _ (_prepare_sampled _ _ _ _ _ Hr Hd)
                 (line_truthy _ (value +:+ "|@" +:+ str_of_num rate))).
      apply _send_returns; [|exact Hb].
      now rewrite !is_ascii_app, Hn, Hv, is_ascii_str_of_num.
  - rewrite (_send_stat_line _ _ _ _ _ _ _ (_prepare_full_rate _ _ _ _ _ Hr)
               (line_truthy _ _)).
    apply _send_returns; [|exact Hb].
    now rewrite !is_ascii_app, Hn, Hv.
Qed.

(** [timing] of a float, as the timer calls it. *)
Lemma timing_float_returns (self : StatsClient) (stat : string) (x : spec_float)
    (rate : pynum) (w : World) :
  prefix_ascii self = true -> is_ascii stat = true -> benign w ->
  fst (timing self stat (PyFloat x) rate w) = Return tt.
Proof.
  intros Hp Hs Hb. unfold timing, bind. cbn [format_f6 lift]. unfold ret.
  apply _send_stat_returns; auto.
  now rewrite is_ascii_app, is_ascii_format_f6_float.
Qed.

(** X12.  With a stat name and a prefix in ASCII, on a network whose
    [sendto] raises nothing but [socket.error] and [RuntimeError], a metric
    operation on numbers (or on ASCII strings) that has formatted its value
    returns normally, at every rate and whatever is drawn: it never raises
    into the application. *)
Theorem ascii_calls_return :
  forall (self : StatsClient) (c : metric_call) (v : string) (w : World),
    value_portion c = inr v ->
    is_ascii (call_stat c) = true ->
    prefix_ascii self = true ->
    call_text_ascii c = true ->
    benign w ->
    fst (run_call self c w) = Return tt.
Proof.
  intros self c v w Hv Hs Hp Ht Hb.
  rewrite (run_call_send_stat self c v Hv).
  apply _send_stat_returns; auto.
  now apply (value_portion_ascii c).
Qed.

(** [timing('foo', 1.5, rate=0.5)] on a socket that times out. *)
Lemma ascii_calls_return_witness :
  fst (run_call (test_client (Some "app"%string))
                (CallTiming "foo" (PyFloat (float_ratio 3 2)) (PyFloat half))
                world_timeout)
  = Return tt.
Proof.
  refine (ascii_calls_return (test_client (Some "app"%string))
            (CallTiming "foo" (PyFloat (float_ratio 3 2)) (PyFloat half))
            _ world_timeout eq_refl eq_refl eq_refl eq_refl _).
  intros n e H. injection H as <-. reflexivity.
Defined.

(* ------------------------------------------------------------------ *)
(** ** Timers with names in ASCII: nothing of the timer shows *)
(* ------------------------------------------------------------------ *)

(** X13.  When the stat name of the timer and the prefix of its client
    are ASCII and the network is benign, the decorated function ends as
    the function itself does: the same return value or the same
    exception, at every rate and whatever is drawn. *)
Theorem decorated_call_is_transparent :
  forall (Args Ret : Type) (t : ref) (f : Args -> M Ret) (args : Args)
         (w : World) (r : outcome Ret) (w1 : World) (o1 : Timer.obj),
    f args (ticked w) = (r, w1) ->
    timers w1 !! t = Some o1 ->
    is_ascii (Timer.stat o1) = true ->
    prefix_ascii (Timer.client o1) = true ->
    benign w1 ->
    fst (__call__ t f args w) = r.
Proof.
  intros Args Ret t f args w r w1 o1 Hf H1 Hs Hp Hb.
  unfold __call__. rewrite (_wrapped_eq t f args w r w1 o1 Hf H1).
  pose proof (timing_float_returns (Timer.client o1) (Timer.stat o1)
                (to_ms (float_sub (next_time w1) (next_time w))) (Timer.rate o1)
                (ticked w1) Hp Hs Hb) as Ht.
  unfold after_emission.
  destruct (timing _ _ _ _ _) as [[u|e] w2]; [reflexivity|discriminate].
Qed.

(** A decorated function that raises, on a socket that times out. *)
Lemma decorated_call_is_transparent_witness :
  fst (__call__ 0%nat (fun _ : unit => @raise unit (Exn ValueError "")) tt
                (set_timers (timers (world_timer "foo" (PyFloat half)))
                            world_timeout))
  = Raise (Exn ValueError "").
Proof.
  refine (decorated_call_is_transparent unit unit 0%nat
            (fun _ : unit => @raise unit (Exn ValueError "")) tt
            (set_timers (timers (world_timer "foo" (PyFloat half))) world_timeout)
            (Raise (Exn ValueError ""))
            (ticked (set_timers (timers (world_timer "foo" (PyFloat half)))
                                world_timeout))
            (Timer.Obj (test_client None) "foo" (PyFloat half) None false None)
            eq_refl eq_refl eq_refl eq_refl _).
  intros n e H. injection H as <-. reflexivity.
Defined.

(** X14.  When the scoped code has left the timer started and unsent,
    the stat name and the prefix are ASCII and the network is benign, the
    [with] statement ends as the scoped code does: its value, or its
    exception unchanged. *)
Theorem scope_is_transparent :
  forall (A : Type) (t : ref) (o : Timer.obj) (body : ref -> M A) (w : World)
         (r : outcome A) (w2 : World) (o2 : Timer.obj) (st : spec_float),
    timers w !! t = Some o ->
    body t (with_timer t
              (set_start_time (Some (next_time w)) (set_sent false (set_ms None o)))
              (ticked w)) = (r, w2) ->
    timers w2 !! t = Some o2 ->
    Timer._start_time o2 = Some st ->
    Timer._sent o2 = false ->
    is_ascii (Timer.stat o2) = true ->
    prefix_ascii (Timer.client o2) = true ->
    benign w2 ->
    fst (scoped t body w) = propagated r.
Proof.
  intros A t o body w r w2 o2 st H Hbody H2 Hst Hsent Hs Hp Hb.
  rewrite (scoped_eq t o body w H). cbv zeta. rewrite Hbody. cbn [fst snd].
  rewrite (stop_eq t o2 st true w2 H2 Hst). cbv zeta. cbn iota.
  set (o2' := set_ms (Some (to_ms (float_sub (next_time w2) st))) o2).
  assert (H2' : timers (with_timer t o2' (ticked w2)) !! t = Some o2')
    by now apply (with_timer_lookup t o2).
  rewrite (send_eq t o2' _ _ H2' eq_refl Hsent).
  pose proof (timing_float_returns (Timer.client o2') (Timer.stat o2')
                (to_ms (float_sub (next_time w2) st)) (Timer.rate o2')
                (with_timer t (set_sent true o2') (with_timer t o2' (ticked w2)))
                Hp Hs Hb) as Ht.
  destruct (timing _ _ _ _ _) as [[u|e] w3]; [reflexivity|discriminate].
Qed.

(** The scope of [test_timer_context_exceptions]: [socket.timeout] is
    raised inside and comes out. *)
Lemma scope_is_transparent_witness :
  fst (scoped 0%nat (fun _ => @raise unit (Exn socket_timeout ""))
              (world_timer "foo" (PyInt 1)))
  = Raise (Exn socket_timeout "").
Proof.
  refine (scope_is_transparent unit 0%nat
            (Timer.Obj (test_client None) "foo" (PyInt 1) None false None)
            (fun _ => @raise unit (Exn socket_timeout ""))
            (world_timer "foo" (PyInt 1)) (Raise (Exn socket_timeout ""))
            (with_timer 0%nat
               (Timer.Obj (test_client None) "foo" (PyInt 1) None false
                          (Some (S754_zero false)))
               (ticked (world_timer "foo" (PyInt 1))))
            (Timer.Obj (test_client None) "foo" (PyInt 1) None false
                       (Some (S754_zero false)))
            (S754_zero false)
            eq_refl eq_refl eq_refl eq_refl eq_refl eq_refl eq_refl _).
  intros n e H. discriminate.
Defined.

(* ------------------------------------------------------------------ *)
(** ** The precision of a timing value *)
(* ------------------------------------------------------------------ *)






(* ------------------------------------------------------------------ *)
(** ** The scenarios of [tests.py] *)
(* ------------------------------------------------------------------ *)

(** The tests pin [random.random] at [-1] (resp. [2]) and replace the
    socket by a mock that records the calls of [sendto]; here the client
    is [test_client], the draws are those of [world0] and the record is
    [sendto_calls]. *)

Example test_incr :
  payloads (snd ((incr (test_client None) "foo" (VNum (PyInt 1)) (PyInt 1) ;;
                  incr (test_client None) "foo" (VNum (PyInt 10)) (PyInt 1) ;;
                  incr (test_client None) "foo" (VNum (PyFloat (float_ratio 12 10)))
                       (PyInt 1) ;;
                  incr (test_client None) "foo" (VNum (PyInt 10)) (PyFloat half))
                   (world0 (PyInt (-1)))))
  = ["foo:1|c"; "foo:10|c"; "foo:1.2|c"; "foo:10|c|@0.5"]%string.
Proof. vm_compute. reflexivity. Qed.

Example test_decr :
  payloads (snd ((decr (test_client None) "foo" (VNum (PyInt 1)) (PyInt 1) ;;
                  decr (test_client None) "foo" (VNum (PyInt 10)) (PyInt 1) ;;
                  decr (test_client None) "foo" (VNum (PyFloat (float_ratio 12 10)))
                       (PyInt 1) ;;
                  decr (test_client None) "foo" (VNum (PyInt 1)) (PyFloat half))
                   (world0 (PyInt (-1)))))
  = ["foo:-1|c"; "foo:-10|c"; "foo:-1.2|c"; "foo:-1|c|@0.5"]%string.
Proof. vm_compute. reflexivity. Qed.

Example test_set :
  payloads (snd ((set (test_client None) "foo" (VNum (PyInt 10)) (PyInt 1) ;;
                  set (test_client None) "foo" (VNum (PyFloat (float_ratio 23 10)))
                      (PyInt 1) ;;
                  set (test_client None) "foo" (VStr "bar") (PyInt 1) ;;
                  set (test_client None) "foo" (VNum (PyFloat (float_ratio 23 10)))
                      (PyFloat half))
                   (world0 (PyInt (-1)))))
  = ["foo:10|s"; "foo:2.3|s"; "foo:bar|s"; "foo:2.3|s|@0.5"]%string.
Proof. vm_compute. reflexivity. Qed.

Example test_timing :
  payloads (snd ((timing (test_client None) "foo" (PyInt 100) (PyInt 1) ;;
                  timing (test_client None) "foo" (PyInt 350) (PyInt 1) ;;
                  timing (test_client None) "foo" (PyInt 100) (PyFloat half))
                   (world0 (PyInt (-1)))))
  = ["foo:100.000000|ms"; "foo:350.000000|ms"; "foo:100.000000|ms|@0.5"]%string.
Proof. vm_compute. reflexivity. Qed.

Example test_prepare :
  fst (_prepare (test_client None) "foo" "1|c" (PyInt 1) (world0 (PyInt (-1))))
    = Return (Some "foo:1|c"%string) /\
  fst (_prepare (test_client None) "bar" "50|ms" (PyFloat half) (world0 (PyInt (-1))))
    = Return (Some "bar:50|ms|@0.5"%string) /\
  fst (_prepare (test_client None) "baz" "23|g" (PyInt 1) (world0 (PyInt (-1))))
    = Return (Some "baz:23|g"%string).
Proof. vm_compute. repeat split. Qed.

Example test_big_numbers :
  payloads (snd ((incr (test_client None) "foo" (VNum (PyInt 1234568901234)) (PyInt 1) ;;
                  timing (test_client None) "foo" (PyInt 1234568901234) (PyInt 1))
                   (world0 (PyInt (-1)))))
  = ["foo:1234568901234|c"; "foo:1234568901234.000000|ms"]%string.
Proof. vm_compute. reflexivity. Qed.

Example test_rate_no_send :
  payloads (snd (incr (test_client None) "foo" (VNum (PyInt 1)) (PyFloat half)
                      (world0 (PyInt 2))))
  = [].
Proof. vm_compute. reflexivity. Qed.

Example test_socket_error :
  fst (incr (test_client None) "foo" (VNum (PyInt 1)) (PyInt 1) world_timeout)
    = Return tt /\
  payloads (snd (incr (test_client None) "foo" (VNum (PyInt 1)) (PyInt 1)
                      world_timeout))
    = ["foo:1|c"%string].
Proof. vm_compute. repeat split. Qed.

Example test_timer_object_no_send :
  let w1 := snd ((start 0%nat ;; stop 0%nat false) (world_timer "foo" (PyInt 1))) in
  payloads w1 = [] /\
  fst (send 0%nat w1) = Return tt /\
  payloads (snd (send 0%nat w1)) = ["foo:1000.000000|ms"%string] /\
  fst (send 0%nat (snd (send 0%nat w1)))
    = Raise (Exn RuntimeError "Already sent data.").
Proof. vm_compute. repeat split. Qed.

Example test_timer_send_without_stop :
  fst ((start 0%nat ;; send 0%nat) (world_timer "bar" (PyInt 1)))
    = Raise (Exn RuntimeError "No data recorded.").
Proof. vm_compute. reflexivity. Qed.

Example test_timer_context_rate :
  payloads (snd (scoped 0%nat (fun _ => ret tt) (world_timer "foo" (PyFloat half))))
  = ["foo:1000.000000|ms|@0.5"%string].
Proof. vm_compute. reflexivity. Qed.
